(** * bitswan-gitops-cli: the [init] and [list] commands and the Docker Hub
      version lookup, as a shallow embedding.

    Sources embedded here:
    - [internal/dockerhub/dockerhub.go]  (module [Dockerhub])
    - [cmd/init.go]                      (modules [Ownership], [Init])
    - [cmd/list.go]                      (module [List])

    Strings are Go strings seen as byte sequences.  The file system is a
    finite map from path strings to node kinds; every fallible call to the
    operating system, to a subprocess or to a collaborator package takes its
    outcome from an environment record, one field per call site.  Go's
    [panic] / [defer] / [recover] are modelled by a three-way result.
    Console output is not part of the model. *)

From Stdlib Require Import Ascii String List Bool Arith Lia.
From stdpp Require Import base option strings pretty gmap.

Import ListNotations.
Local Open Scope string_scope.

(* ===================================================================== *)
(** ** internal/dockerhub *)
(* ===================================================================== *)

Module Dockerhub.

(** Regular expressions, as far as the tag pattern needs them.  A character
    class is a list of inclusive byte ranges. *)
Inductive regex : Type :=
  | REmpty : regex
  | REps : regex
  | RClass : list (ascii * ascii) -> regex
  | RCat : regex -> regex -> regex
  | RAlt : regex -> regex -> regex
  | RStar : regex -> regex.

Definition in_range (c : ascii) (r : ascii * ascii) : bool :=
  Nat.leb (nat_of_ascii (fst r)) (nat_of_ascii c)
  && Nat.leb (nat_of_ascii c) (nat_of_ascii (snd r)).

Definition in_class (c : ascii) (cl : list (ascii * ascii)) : bool :=
  existsb (in_range c) cl.

Fixpoint nullable (r : regex) : bool :=
  match r with
  | REmpty => false
  | REps => true
  | RClass _ => false
  | RCat a b => nullable a && nullable b
  | RAlt a b => nullable a || nullable b
  | RStar _ => true
  end.

(** Brzozowski derivative of [r] by the byte [c]. *)
Fixpoint deriv (c : ascii) (r : regex) : regex :=
  match r with
  | REmpty => REmpty
  | REps => REmpty
  | RClass cl => if in_class c cl then REps else REmpty
  | RCat a b =>
      if nullable a then RAlt (RCat (deriv c a) b) (deriv c b)
      else RCat (deriv c a) b
  | RAlt a b => RAlt (deriv c a) (deriv c b)
  | RStar a => RCat (deriv c a) (RStar a)
  end.

(** Anchored match ([^...$]): the whole string has to be consumed. *)
Fixpoint full_match (r : regex) (s : string) : bool :=
  match s with
  | EmptyString => nullable r
  | String c s' => full_match (deriv c r) s'
  end.

Definition lit (c : ascii) : regex := RClass [(c, c)].

Fixpoint lits (s : string) : regex :=
  match s with
  | EmptyString => REps
  | String c s' => RCat (lit c) (lits s')
  end.

Definition plus (r : regex) : regex := RCat r (RStar r).

(** [\d] *)
Definition digit : regex := RClass [("0"%char, "9"%char)].
(** [[a-fA-F0-9]] *)
Definition hexdigit : regex :=
  RClass [("a"%char, "f"%char); ("A"%char, "F"%char); ("0"%char, "9"%char)].

(** pattern := `^\d{4}-\d+-git-[a-fA-F0-9]+$` *)
Definition pattern : regex :=
  RCat digit (RCat digit (RCat digit (RCat digit
    (RCat (lit "-"%char)
      (RCat (plus digit)
        (RCat (lits "-git-") (plus hexdigit))))))).

Definition MatchString (tag : string) : bool := full_match pattern tag.





End Dockerhub.

(* ===================================================================== *)
(** ** cmd/init.go: changeOwnership *)
(* ===================================================================== *)

Module Ownership.

(** [syscall.Stat_t], the two fields the code can look at. *)
Record Stat_t : Type := mkStat { Uid : nat; Gid : nat }.

(** What [info.Sys()] holds: a [*syscall.Stat_t] (always, from [os.Stat] on
    Linux) or some other value, for which the type assertion gives
    [ok = false]. *)
Inductive sys_value : Type :=
  | SysStat (st : Stat_t)
  | SysOther.

(** Outcome of [os.Stat(directory)]. *)
Inductive stat_result : Type :=
  | StatErr (statErr : string)
  | StatInfo (sys : sys_value).

(** Outcome of running [chown -R uid:gid directory]. *)
Inductive run_result : Type :=
  | RunOk
  | RunErr (err : string).

(** [changeOwnership]; [None] is Go's [nil] error.  The stat is consulted
    only on the failure path, as in the source. *)
Definition changeOwnership (chown : run_result) (stat : stat_result)
    (uid gid : nat) : option string :=
  match chown with
  | RunErr err =>
      match stat with
      | StatErr statErr =>
          Some ("failed to change ownership and check status: " +:+ err
                +:+ String "010" " " +:+ statErr)
      | StatInfo (SysStat st) =>
          if Nat.eqb (Uid st) uid then None
          else Some ("failed to change ownership of directory: " +:+ err)
      | StatInfo SysOther => None
      end
  | RunOk => None
  end.

(** [os.Stat] on Linux: an error, or a [FileInfo] whose [Sys()] is a
    [*syscall.Stat_t]. *)
Definition linux_stat (r : string + Stat_t) : stat_result :=
  match r with
  | inl statErr => StatErr statErr
  | inr st => StatInfo (SysStat st)
  end.

End Ownership.


(* ===================================================================== *)
(** ** The host: file system, subprocess log, git worktrees *)
(* ===================================================================== *)

Module Host.

(** *** Path strings *)

Definition slash : ascii := "/"%char.

(** [a] is a prefix of [b]. *)
Fixpoint is_prefix (a b : string) : bool :=
  match a, b with
  | EmptyString, _ => true
  | String x a', String y b' => Ascii.eqb x y && is_prefix a' b'
  | String _ _, EmptyString => false
  end.

(** Drop the slashes a path ends with. *)
Fixpoint rstrip (s : string) : string :=
  match s with
  | EmptyString => EmptyString
  | String c s' =>
      match rstrip s' with
      | EmptyString => if Ascii.eqb c slash then EmptyString else String c EmptyString
      | t => String c t
      end
  end.

(** The key under which a path is looked up: trailing slashes do not
    matter to the kernel, and a path made of slashes only is the root.
    Components [.] and [..] and symbolic links are not resolved. *)
Definition clean (p : string) : string :=
  match rstrip p, p with
  | EmptyString, String _ _ => "/"
  | t, _ => t
  end.

(** [p] is the directory [d] or lies below it. *)
Definition under (d p : string) : bool :=
  String.eqb d p || is_prefix (d +:+ "/") p.

Fixpoint has_slash (s : string) : bool :=
  match s with
  | EmptyString => false
  | String c s' => Ascii.eqb c slash || has_slash s'
  end.

(** Proper ancestors of a path: every non-empty prefix that is followed by
    a slash.  [acc] is the prefix read so far. *)
Fixpoint ancestors_from (acc s : string) : list string :=
  match s with
  | EmptyString => []
  | String c s' =>
      let rest := ancestors_from (acc +:+ String c EmptyString) s' in
      if Ascii.eqb c slash
      then match acc with
           | EmptyString => rest
           | _ => clean acc :: rest
           end
      else rest
  end.

Definition ancestors (p : string) : list string := ancestors_from "" p.

(** *** File-system nodes and the world *)

Inductive node : Type :=
  | Dir
  | File (data : string).

(** A subprocess that was run: working directory ([None]: inherited) and
    argument vector. *)
Record command : Type := Cmd { cmd_dir : option string; cmd_argv : list string }.

(** Calls into the reverse proxy's admin API that change it. *)
Inductive api_call : Type :=
  | InitCaddy
  | AddCaddyRecords (name domain : string) (certs noIde : bool).

Record world : Type := World {
  fs : gmap string node;          (* existing paths *)
  cwd : string;                   (* process working directory *)
  execs : list command;           (* subprocesses run, newest first *)
  api : list api_call;            (* admin-API calls made, newest first *)
  worktree_branch : gmap string string  (* git worktree path -> branch checked out *)
}.

Definition set_fs (f : gmap string node -> gmap string node) (w : world) : world :=
  World (f (fs w)) (cwd w) (execs w) (api w) (worktree_branch w).

Definition exists_path (p : string) (w : world) : bool :=
  bool_decide (is_Some (fs w !! clean p)).

(** *** Effects of the file-system calls when they succeed *)

Definition add_dir (p : string) (m : gmap string node) : gmap string node :=
  match m !! p with
  | Some _ => m
  | None => <[p := Dir]> m
  end.

(** [os.MkdirAll]: the directory and every missing parent. *)
Definition mkdir_all (p : string) (m : gmap string node) : gmap string node :=
  add_dir (clean p) (foldr add_dir m (ancestors (clean p))).

(** [os.Mkdir]. *)
Definition mkdir (p : string) (m : gmap string node) : gmap string node :=
  add_dir (clean p) m.

(** [os.WriteFile]: create or truncate. *)
Definition write_file (p data : string) (m : gmap string node) : gmap string node :=
  <[clean p := File data]> m.

(** [os.RemoveAll]: the path and everything below it. *)
Definition remove_all (p : string) (m : gmap string node) : gmap string node :=
  filter (fun kv => under (clean p) (fst kv) = false) m.

(** [os.ReadDir]: the entries directly inside [d], sorted by name, each
    with its [IsDir()]. *)
Fixpoint drop_prefix (a b : string) : option string :=
  match a, b with
  | EmptyString, _ => Some b
  | String x a', String y b' => if Ascii.eqb x y then drop_prefix a' b' else None
  | String _ _, EmptyString => None
  end.

Definition child_name (d k : string) : option string :=
  match drop_prefix (clean d +:+ "/") k with
  | Some (String c r) => if has_slash (String c r) then None else Some (String c r)
  | _ => None
  end.

Fixpoint insert_entry (e : string * bool) (l : list (string * bool)) : list (string * bool) :=
  match l with
  | [] => [e]
  | x :: l' => if String.leb (fst e) (fst x) then e :: l else x :: insert_entry e l'
  end.

Definition is_dir (n : node) : bool :=
  match n with Dir => true | File _ => false end.

Definition read_dir (d : string) (m : gmap string node) : list (string * bool) :=
  foldr (fun kv acc =>
           match child_name d (fst kv) with
           | Some n => insert_entry (n, is_dir (snd kv)) acc
           | None => acc
           end) [] (map_to_list m).

Definition read_file (p : string) (m : gmap string node) : string :=
  match m !! clean p with
  | Some (File data) => data
  | _ => ""
  end.

(** [os.Rename] of a file. *)
Definition rename_path (a b : string) (m : gmap string node) : gmap string node :=
  match m !! clean a with
  | Some n => <[clean b := n]> (delete (clean a) m)
  | None => m
  end.

(** What the subprocesses the program runs do to the world when they exit
    with status 0, read off their argument vectors: [git clone] and
    [git init] leave a repository, [git worktree add --orphan -b B P] leaves
    a worktree at [P] on the new unborn branch [B].  The docker, chown,
    mkcert and remaining git commands leave no trace in this model. *)
Definition subprocess_effect (dir : option string) (argv : list string)
    (w : world) : world :=
  match argv with
  | [g; c; _; target] =>
      if bool_decide ([g; c] = ["git"; "clone"])
      then set_fs (fun m => mkdir (target +:+ "/.git") (mkdir_all target m)) w
      else w
  | [g; i] =>
      match dir with
      | Some d =>
          if bool_decide ([g; i] = ["git"; "init"])
          then set_fs (mkdir (d +:+ "/.git")) w
          else w
      | None => w
      end
  | [g; wt; a; orphan; b; branch; path] =>
      if bool_decide ([g; wt; a; orphan; b] = ["git"; "worktree"; "add"; "--orphan"; "-b"])
      then World (mkdir_all path (fs w)) (cwd w) (execs w) (api w)
             (<[clean path := branch]> (worktree_branch w))
      else w
  | _ => w
  end.

End Host.

(* ===================================================================== *)
(** ** Control flow of a Go function body *)
(* ===================================================================== *)

Module Go.
Import Host.

(** How a piece of a function body ends: it falls through with a value, it
    executes [return err], or it panics with a value (here always an error,
    kept as its message). *)
Inductive res (A : Type) : Type :=
  | Ok (a : A)
  | Ret (err : option string)
  | Pan (v : string).
Arguments Ok {A} a.
Arguments Ret {A} err.
Arguments Pan {A} v.

Definition M (A : Type) : Type := world -> res A * world.

Definition ret {A} (a : A) : M A := fun w => (Ok a, w).
Definition return_ {A} (err : option string) : M A := fun w => (Ret err, w).
Definition panic {A} (v : string) : M A := fun w => (Pan v, w).

Definition bind {A B} (c : M A) (k : A -> M B) : M B :=
  fun w =>
    match c w with
    | (Ok a, w') => k a w'
    | (Ret e, w') => (Ret e, w')
    | (Pan v, w') => (Pan v, w')
    end.

Definition get_world : M world := fun w => (Ok w, w).
Definition modify (f : world -> world) : M unit := fun w => (Ok tt, f w).

(** [defer func() { if r := recover(); r != nil { handler } }()] around the
    rest of the body.  When the rest returns or falls off the end,
    [recover()] is [nil] and the handler does nothing.  When it panics, the
    handler runs and the panic is over: the function returns, and since
    [run] has an unnamed result, what it returns is the zero value [nil]. *)
Definition defer_recover {A} (handler : world -> world) (rest : M A) : M A :=
  fun w =>
    match rest w with
    | (Pan _, w') => (Ret None, handler w')
    | r => r
    end.

End Go.

Declare Scope go_scope.
Delimit Scope go_scope with go.
Notation "x <- c ;; k" := (Go.bind c (fun x => k))
  (at level 100, c at next level, k at level 200, right associativity) : go_scope.
Notation "c ;; k" := (Go.bind c (fun _ => k))
  (at level 100, k at level 200, right associativity) : go_scope.

(* ===================================================================== *)
(** ** cmd/init.go *)
(* ===================================================================== *)

Module Init.
Import Host Go.
Local Open Scope go_scope.

Record initOptions : Type := {
  remoteRepo : string;
  domain : string;
  certsDir : string;
  mkCerts : bool;
  noIde : bool;
  gitopsImage : string;
  editorImage : string
}.

(** [cobra.RangeArgs(1, 2)] *)
Definition RangeArgs (lo hi : nat) (args : list string) : bool :=
  Nat.leb lo (length args) && Nat.leb (length args) hi.

Definition accepts_args (args : list string) : bool := RangeArgs 1 2 args.

(** Lines 338-341. *)
Definition gitopsName (args : list string) : string :=
  match args with
  | [a] => a
  | _ => "gitops"
  end.

(** A Go [error]: [None] is [nil]. *)
Definition error : Type := option string.

(** One line of [docker network ls --format=json] after [json.Unmarshal]. *)
Inductive ls_line : Type :=
  | BadJSON (err : string)
  | Network (Name : string).

(** Outcomes of everything outside the process, one field per call site of
    [run] and of the functions it calls.  For a call that returns only an
    error the field is that error; [inl] is the error of a call that also
    returns a value. *)
Record env : Type := {
  HOME : string;
  mkdir_config : error;                               (* l.167 *)
  network_ls : string + list ls_line;                 (* l.75, l.86 *)
  network_create : Ownership.run_result;              (* l.184 *)
  admin_probe : error;                                (* l.210 *)
  mkdir_caddy : error;                                (* l.220 *)
  write_caddyfile : error;                            (* l.232 *)
  CreateCaddyDockerComposeFile : string -> string -> string + string;  (* l.236 *)
  write_caddy_compose : error;                        (* l.242 *)
  chdir_caddy : error;                                (* l.246 *)
  mkdir_caddy_certs : error;                          (* l.261 *)
  caddy_up : Ownership.run_result;                    (* l.267 *)
  caddy_up_output : string;                           (* l.269 *)
  InitCaddy_result : error;                           (* l.275 *)
  mkdir_temp : string + string;                       (* l.122 *)
  getwd : error;                                      (* l.128 *)
  chdir_temp : error;                                 (* l.134 *)
  mkcert : Ownership.run_result;                      (* l.144 *)
  mkcert_key : string;                                (* what mkcert writes *)
  mkcert_cert : string;
  rename_key : error;                                 (* l.153 *)
  rename_cert : error;                                (* l.156 *)
  mkdir_certs_store : error;                          (* l.299 *)
  mkdir_certs_domain : error;                         (* l.306 *)
  readdir_certs : error;                              (* l.311 *)
  read_cert : string -> error;                        (* l.324 *)
  write_cert : string -> error;                       (* l.329 *)
  mkdir_gitops : error;                               (* l.357 *)
  git_clone : Ownership.run_result;                   (* l.367 *)
  mkdir_workspace : error;                            (* l.372 *)
  git_init : Ownership.run_result;                    (* l.380 *)
  chown_workspace : Ownership.run_result;             (* l.101 from l.387 *)
  stat_workspace : Ownership.stat_result;             (* l.103 from l.387 *)
  worktree_add : Ownership.run_result;                (* l.397 *)
  safe_directory : Ownership.run_result;              (* l.403 *)
  empty_commit : Ownership.run_result;                (* l.411 *)
  push_upstream : Ownership.run_result;               (* l.418 *)
  mkdir_secrets : error;                              (* l.427 *)
  chown_secrets : Ownership.run_result;               (* l.101 from l.431 *)
  stat_secrets : Ownership.stat_result;               (* l.103 from l.431 *)
  GetLatestDockerHubVersion : string -> string + string;   (* l.437, l.446 *)
  mkdir_deployment : error;                           (* l.455 *)
  AddCaddyRecords_result : error;                     (* l.459 *)
  CreateDockerComposeFile :
    string -> string -> string -> string -> string -> bool
    -> string + (string * string);                    (* l.464 *)
  write_compose : error;                              (* l.477 *)
  chdir_deployment : error;                           (* l.481 *)
  compose_up : Ownership.run_result;                  (* l.497 *)
  GetEditorPassword : string -> string -> string + string;  (* l.512 *)
  remove_all_result : string -> error                 (* l.67 *)
}.

(** *** Calls that change the world *)

Definition os_MkdirAll (outcome : error) (p : string) : M error :=
  fun w => match outcome with
           | None => (Ok None, set_fs (mkdir_all p) w)
           | Some e => (Ok (Some e), w)
           end.

Definition os_Mkdir (outcome : error) (p : string) : M error :=
  fun w => match outcome with
           | None => (Ok None, set_fs (mkdir p) w)
           | Some e => (Ok (Some e), w)
           end.

Definition os_WriteFile (outcome : error) (p data : string) : M error :=
  fun w => match outcome with
           | None => (Ok None, set_fs (write_file p data) w)
           | Some e => (Ok (Some e), w)
           end.

Definition os_Chdir (outcome : error) (p : string) : M error :=
  fun w => match outcome with
           | None => (Ok None, World (fs w) p (execs w) (api w) (worktree_branch w))
           | Some e => (Ok (Some e), w)
           end.

Definition os_Stat_IsNotExist (p : string) : M bool :=
  fun w => (Ok (negb (exists_path p w)), w).

(** [exec.Command(argv...).Run()] with [Dir = dir]: the command is run, and
    has its effect when it succeeds. *)
Definition run_command (outcome : Ownership.run_result) (dir : option string)
    (argv : list string) : M error :=
  fun w =>
    let w1 := World (fs w) (cwd w) (Cmd dir argv :: execs w) (api w) (worktree_branch w) in
    match outcome with
    | Ownership.RunOk => (Ok None, subprocess_effect dir argv w1)
    | Ownership.RunErr e => (Ok (Some e), w1)
    end.

Definition call_api (c : api_call) (outcome : error) : M error :=
  fun w => (Ok outcome, World (fs w) (cwd w) (execs w) (c :: api w) (worktree_branch w)).

(** [if err != nil { return fmt.Errorf(msg + "%w", err) }] *)
Definition or_return (msg : string) (c : M error) : M unit :=
  e <- c ;;
  match e with
  | None => ret tt
  | Some e => return_ (Some (msg +:+ e))
  end.

(** [if err != nil { panic(fmt.Errorf(msg + "%w", err)) }] *)
Definition or_panic (msg : string) (c : M error) : M unit :=
  e <- c ;;
  match e with
  | None => ret tt
  | Some e => panic (msg +:+ e)
  end.

Definition value_or_panic {A} (msg : string) (r : string + A) : M A :=
  match r with
  | inl e => panic (msg +:+ e)
  | inr a => ret a
  end.

(** [cleanup] (l.66-70): a failed removal is reported and nothing else. *)
Definition cleanup (E : env) (dir : string) (w : world) : world :=
  match remove_all_result E dir with
  | None => set_fs (remove_all dir) w
  | Some _ => w
  end.

Section Run.
Variable E : env.
Variable o : initOptions.
Variable args : list string.

Definition bitswanConfig : string := HOME E +:+ "/.config/bitswan/".
Definition caddyConfig : string := bitswanConfig +:+ "caddy".
Definition caddyCertsDir : string := caddyConfig +:+ "/certs".
Definition gitopsConfig : string := bitswanConfig +:+ gitopsName args.
Definition gitopsWorkspace : string := gitopsConfig +:+ "/workspace".
Definition gitopsWorktree : string := gitopsConfig +:+ "/gitops".
Definition secretsDir : string := gitopsConfig +:+ "/secrets".
Definition gitopsDeployment : string := gitopsConfig +:+ "/deployment".

(** [checkNetworkExists] (l.72-96): the loop over the output lines. *)
Fixpoint scan_networks (lines : list ls_line) (networkName : string) : bool * error :=
  match lines with
  | [] => (false, None)
  | BadJSON e :: _ => (false, Some ("error parsing JSON: " +:+ e))
  | Network n :: rest =>
      if String.eqb n networkName then (true, None) else scan_networks rest networkName
  end.

Definition checkNetworkExists (networkName : string) : M (bool * error) :=
  fun w =>
    let w1 := World (fs w) (cwd w)
                (Cmd None ["docker"; "network"; "ls"; "--format=json"] :: execs w)
                (api w) (worktree_branch w) in
    match network_ls E with
    | inl e => (Ok (false, Some ("error running docker command: " +:+ e)), w1)
    | inr lines => (Ok (scan_networks lines networkName), w1)
    end.

(** l.164-193: the config root and the shared network.  No handler is
    deferred yet, so the panic of l.176 leaves [run] as a panic. *)
Definition NetworkProvisioner : M unit :=
  missing <- os_Stat_IsNotExist bitswanConfig ;;
  (if missing : bool
   then or_return "failed to create BitSwan config directory: "
          (os_MkdirAll (mkdir_config E) bitswanConfig)
   else ret tt) ;;
  r <- checkNetworkExists "bitswan_network" ;;
  match snd r with
  | Some e => panic ("Error checking network: " +:+ e +:+ String "010" "")
  | None =>
      if fst r then ret tt
      else
        _ <- run_command (network_create E) None
               ["docker"; "network"; "create"; "bitswan_network"] ;;
        ret tt
  end.

Definition caddyfile : string :=
  String "010" (String "009" (String "009" ("{" +:+
  String "010" (String "009" (String "009" (String "009" ("email info@bitswan.space" +:+
  String "010" (String "009" (String "009" (String "009" ("admin 0.0.0.0:2019" +:+
  String "010" (String "009" (String "009" "}"))))))))))))).

Definition caddy_up_command : command :=
  Cmd None ["docker"; "compose"; "-p"; "bitswan-caddy"; "up"; "-d"].

(** l.207-283.  [caddy_running] is whether the GET on the admin endpoint
    came back without error. *)
Definition caddy_running : bool :=
  match admin_probe E with None => true | Some _ => false end.

Definition ProxyBootstrapper : M unit :=
  if caddy_running then ret tt
  else
    or_return "failed to create Caddy config directory: "
      (os_MkdirAll (mkdir_caddy E) caddyConfig) ;;
    or_panic "Failed to write Caddyfile: "
      (os_WriteFile (write_caddyfile E) (caddyConfig +:+ "/Caddyfile") caddyfile) ;;
    caddyDockerCompose <-
      value_or_panic "Failed to create Caddy docker-compose file: "
        (CreateCaddyDockerComposeFile E caddyConfig (domain o)) ;;
    or_panic "Failed to write Caddy docker-compose file: "
      (os_WriteFile (write_caddy_compose E)
         (caddyConfig +:+ "/docker-compose.yml") caddyDockerCompose) ;;
    or_panic "Failed to change directory to Caddy config: "
      (os_Chdir (chdir_caddy E) caddyConfig) ;;
    missing <- os_Stat_IsNotExist caddyCertsDir ;;
    (if missing : bool
     then or_return "failed to create Caddy certs directory: "
            (os_MkdirAll (mkdir_caddy_certs E) caddyCertsDir)
     else ret tt) ;;
    e <- run_command (caddy_up E) (cmd_dir caddy_up_command)
           (cmd_argv caddy_up_command) ;;
    match e with
    | Some e =>
        return_ (Some ("Failed to start Caddy:" +:+ String "010" "Error: " +:+ e
                       +:+ String "010" "Output:" +:+ String "010" (caddy_up_output E)))
    | None =>
        or_panic "Failed to init Caddy: " (call_api InitCaddy (InitCaddy_result E))
    end.

(** [generateWildcardCerts] (l.120-161).  It has its own frame and only
    returns; once l.139 is reached, every exit restores the working
    directory. *)
Definition generateWildcardCerts (dom : string) : M (string * error) :=
  fun w =>
    match mkdir_temp E with
    | inl e => (Ok ("", Some ("failed to create temp directory: " +:+ e)), w)
    | inr tempDir =>
        let w1 := set_fs (mkdir tempDir) w in
        match getwd E with
        | Some e => (Ok ("", Some ("failed to get current directory: " +:+ e)), w1)
        | None =>
            let originalDir := cwd w1 in
            match chdir_temp E with
            | Some e => (Ok ("", Some ("failed to change to temp directory: " +:+ e)), w1)
            | None =>
                let back (x : world) := World (fs x) originalDir (execs x) (api x) (worktree_branch x) in
                let keyFile := "_wildcard." +:+ dom +:+ "-key.pem" in
                let certFile := "_wildcard." +:+ dom +:+ ".pem" in
                let here (f : string) := tempDir +:+ "/" +:+ f in
                let w2 := World (fs w1) tempDir
                            (Cmd None ["mkcert"; "*." +:+ dom] :: execs w1)
                            (api w1) (worktree_branch w1) in
                match mkcert E with
                | Ownership.RunErr e =>
                    (Ok ("", Some ("failed to generate certificate: " +:+ e)), back w2)
                | Ownership.RunOk =>
                    let w3 := set_fs (fun m => write_file (here certFile) (mkcert_cert E)
                                               (write_file (here keyFile) (mkcert_key E) m)) w2 in
                    match rename_key E with
                    | Some e => (Ok ("", Some ("failed to rename key file: " +:+ e)), back w3)
                    | None =>
                        let w4 := set_fs (rename_path (here keyFile) (here "private-key.pem")) w3 in
                        match rename_cert E with
                        | Some e => (Ok ("", Some ("failed to rename cert file: " +:+ e)), back w4)
                        | None =>
                            (Ok (tempDir, None),
                             back (set_fs (rename_path (here certFile) (here "full-chain.pem")) w4))
                        end
                    end
                end
            end
        end
    end.

(** The loop of l.316-332 over the entries of the source directory. *)
Fixpoint copy_certs (inputCertsDir certsDir : string) (certs : list (string * bool))
  : M unit :=
  match certs with
  | [] => ret tt
  | (name, isDir) :: rest =>
      if isDir then copy_certs inputCertsDir certsDir rest
      else
        let certPath := inputCertsDir +:+ "/" +:+ name in
        let newCertPath := certsDir +:+ "/" +:+ name in
        bytes <- (fun w => (Ok (read_file certPath (fs w)), w)) ;;
        or_panic "Failed to read cert file: " (ret (read_cert E certPath)) ;;
        or_panic "Failed to copy cert file: "
          (os_WriteFile (write_cert E newCertPath) newCertPath bytes) ;;
        copy_certs inputCertsDir certsDir rest
  end.

(** l.285-335; the value is [inputCertsDir], which l.459 looks at again. *)
Definition CertificateInstaller : M string :=
  inputCertsDir <-
    (if mkCerts o
     then
       r <- generateWildcardCerts (domain o) ;;
       match snd r with
       | Some e => return_ (Some ("Error generating certificates: " +:+ e +:+ String "010" ""))
       | None => ret (fst r)
       end
     else ret (certsDir o)) ;;
  if String.eqb inputCertsDir "" then ret inputCertsDir
  else
    missing <- os_Stat_IsNotExist caddyCertsDir ;;
    (if missing : bool
     then or_return "failed to create Caddy certs directory: "
            (os_MkdirAll (mkdir_certs_store E) caddyCertsDir)
     else ret tt) ;;
    let certsDir' := caddyCertsDir +:+ "/" +:+ domain o in
    missing <- os_Stat_IsNotExist certsDir' ;;
    (if missing : bool
     then or_return "failed to create certs directory: "
            (os_MkdirAll (mkdir_certs_domain E) certsDir')
     else ret tt) ;;
    or_panic "Failed to read certs directory: " (ret (readdir_certs E)) ;;
    certs <- (fun w => (Ok (read_dir inputCertsDir (fs w)), w)) ;;
    copy_certs inputCertsDir certsDir' certs ;;
    ret inputCertsDir.

(** [changeOwnership] as called from [run]: the chown subprocess, then the
    decision of [Ownership.changeOwnership]. *)
Definition changeOwnership (chown : Ownership.run_result) (stat : Ownership.stat_result)
    (directory : string) (uid gid : nat) : M error :=
  _ <- run_command chown None
         ["chown"; "-R"; pretty uid +:+ ":" +:+ pretty gid; directory] ;;
  ret (Ownership.changeOwnership chown stat uid gid).

Definition worktree_add_command : command :=
  Cmd (Some gitopsWorkspace)
      ["git"; "worktree"; "add"; "--orphan"; "-b"; gitopsName args; gitopsWorktree].

(** l.353-423. *)
Definition WorkspaceProvisioner : M unit :=
  missing <- os_Stat_IsNotExist gitopsConfig ;;
  if negb missing
  then return_ (Some ("GitOps with this name was already initialized: " +:+ gitopsName args))
  else
    or_return "failed to create GitOps directory: "
      (os_MkdirAll (mkdir_gitops E) gitopsConfig) ;;
    (if negb (String.eqb (remoteRepo o) "")
     then
       or_panic "Failed to clone remote repository: "
         (run_command (git_clone E) None ["git"; "clone"; remoteRepo o; gitopsWorkspace])
     else
       e <- os_Mkdir (mkdir_workspace E) gitopsWorkspace ;;
       match e with
       | Some e =>
           return_ (Some ("failed to create GitOps workspace directory "
                          +:+ gitopsWorkspace +:+ ": " +:+ e))
       | None =>
           or_panic "Failed to init git in workspace: "
             (run_command (git_init E) (Some gitopsWorkspace) ["git"; "init"])
       end) ;;
    e <- changeOwnership (chown_workspace E) (stat_workspace E) gitopsWorkspace 1000 1000 ;;
    match e with
    | Some e => return_ (Some e)
    | None =>
        e <- run_command (worktree_add E) (cmd_dir worktree_add_command)
               (cmd_argv worktree_add_command) ;;
        match e with
        | Some e => panic ("Failed to create GitOps worktree: exit code " +:+ e +:+ ".")
        | None =>
            or_panic "Failed to add safe directory: "
              (run_command (safe_directory E) None
                 ["git"; "config"; "--global"; "--add"; "safe.directory"; gitopsWorktree]) ;;
            if negb (String.eqb (remoteRepo o) "")
            then
              or_panic "Failed to create empty commit: "
                (run_command (empty_commit E) (Some gitopsWorktree)
                   ["git"; "commit"; "--allow-empty"; "-m"; "Initial commit"]) ;;
              or_panic "Failed to set upstream: "
                (run_command (push_upstream E) (Some gitopsWorktree)
                   ["git"; "push"; "-u"; "origin"; gitopsName args])
            else ret tt
        end
    end.

(** l.425-433. *)
Definition SecretManager : M unit :=
  or_return "failed to create secrets directory: "
    (os_MkdirAll (mkdir_secrets E) secretsDir) ;;
  e <- changeOwnership (chown_secrets E) (stat_secrets E) secretsDir 1000 1000 ;;
  match e with
  | Some e => return_ (Some e)
  | None => ret tt
  end.

Definition projectName : string := gitopsName args +:+ "-site".

Definition compose_up_command : command :=
  Cmd None ["docker"; "compose"; "-p"; projectName; "up"; "-d"].

(** l.435-451: an image given on the command line, or the newest tag. *)
Definition resolve_image (given repo url msg : string) : M string :=
  if String.eqb given "" then
    latest <- value_or_panic msg (GetLatestDockerHubVersion E url) ;;
    ret (repo +:+ latest)
  else ret given.

(** l.435-526. *)
Definition DeploymentComposer (inputCertsDir : string) : M unit :=
  gitopsImage' <-
    resolve_image (gitopsImage o) "bitswan/gitops:"
      "https://hub.docker.com/v2/repositories/bitswan/gitops/tags/"
      "Failed to get latest BitSwan GitOps version: " ;;
  bitswanEditorImage <-
    resolve_image (editorImage o) "bitswan/bitswan-editor:"
      "https://hub.docker.com/v2/repositories/bitswan/bitswan-editor/tags/"
      "Failed to get latest BitSwan Editor version: " ;;
  or_return "Failed to create deployment directory: "
    (os_MkdirAll (mkdir_deployment E) gitopsDeployment) ;;
  or_panic "Failed to add Caddy records: "
    (call_api (AddCaddyRecords (gitopsName args) (domain o)
                 (negb (String.eqb inputCertsDir "")) (noIde o))
       (AddCaddyRecords_result E)) ;;
  ct <- value_or_panic "Failed to create docker-compose file: "
          (CreateDockerComposeFile E gitopsConfig (gitopsName args) gitopsImage'
             bitswanEditorImage (domain o) (noIde o)) ;;
  or_panic "Failed to write docker-compose file: "
    (os_WriteFile (write_compose E) (gitopsDeployment +:+ "/docker-compose.yml") (fst ct)) ;;
  or_panic "Failed to change directory to GitOps deployment: "
    (os_Chdir (chdir_deployment E) gitopsDeployment) ;;
  or_panic "failed to start docker-compose: "
    (run_command (compose_up E) (cmd_dir compose_up_command) (cmd_argv compose_up_command)) ;;
  if negb (noIde o)
  then
    _ <- value_or_panic "Failed to get Bitswan Editor password: "
           (GetEditorPassword E projectName (gitopsName args)) ;;
    ret tt
  else ret tt.

(** The part of [run] under the handler deferred at l.345-351. *)
Definition workspace_stages (inputCertsDir : string) : M unit :=
  WorkspaceProvisioner ;; SecretManager ;; DeploymentComposer inputCertsDir.

Definition workspace_scope (inputCertsDir : string) : M unit :=
  defer_recover (cleanup E gitopsConfig) (workspace_stages inputCertsDir).

(** The part of [run] under the handler deferred at l.199-205.  A panic
    that reaches this handler was not recovered further in. *)
Definition proxy_scope : M unit :=
  defer_recover (cleanup E caddyConfig)
    (ProxyBootstrapper ;;
     inputCertsDir <- CertificateInstaller ;;
     workspace_scope inputCertsDir).

(** [(o *initOptions) run] (l.163-527).  [Ok tt] is the [return nil] of
    l.526. *)
Definition run : M unit :=
  NetworkProvisioner ;; proxy_scope.

End Run.

(** What the caller of [run] gets: an error value, or the panic goes on. *)
Inductive run_outcome : Type :=
  | Returned (err : error)
  | Panicked (v : string).

Definition outcome_of (r : res unit) : run_outcome :=
  match r with
  | Ok _ => Returned None
  | Ret e => Returned e
  | Pan v => Panicked v
  end.

End Init.

(* ===================================================================== *)
(** ** cmd/list.go *)
(* ===================================================================== *)

Module List.
Import Host.

(** [filepath.Join]: the non-empty elements joined by slashes.  Of the
    cleaning it then does, only the trailing slashes are modelled. *)
Fixpoint join_elems (elems : list string) : string :=
  match elems with
  | [] => ""
  | e :: rest =>
      if String.eqb e "" then join_elems rest
      else match join_elems rest with
           | EmptyString => e
           | r => e +:+ "/" +:+ r
           end
  end.

Definition filepath_Join (elems : list string) : string := clean (join_elems elems).

Record env : Type := {
  HOME : string;
  readdir_workspaces : option string;                       (* l.32 *)
  getVSCodePassword : string -> string * option string;     (* l.68-90 *)
  read_compose : string -> option string;                   (* l.96 *)
  (* l.102-138: the secret found in the parsed compose file of a workspace *)
  secret_in_compose : string -> string -> string * option string
}.

Section Run.
Variable E : env.
Variable showPasswords : bool.

Definition bitswanConfig : string :=
  filepath_Join [HOME E; ".config"; "bitswan"; "workspaces"].

(** [getGitOpsSecret] (l.92-139). *)
Definition getGitOpsSecret (workspace configDir : string) (w : world)
  : string * option string :=
  let composeFilePath :=
    filepath_Join [configDir; workspace; "deployment"; "docker-compose.yml"] in
  match read_compose E composeFilePath with
  | Some e => ("", Some e)
  | None => secret_in_compose E workspace (read_file composeFilePath (fs w))
  end.

(** The body of the loop of l.38-57 for one entry: the lines printed. *)
Definition print_entry (w : world) (entry : string * bool) : list string :=
  if snd entry then
    let workspaceName := fst entry in
    [workspaceName]
    ++ (if showPasswords then
          let vscodePassword := fst (getVSCodePassword E workspaceName) in
          let gitopsSecret := fst (getGitOpsSecret workspaceName bitswanConfig w) in
          (if String.eqb vscodePassword "" then []
           else ["  VSCode Password: " +:+ vscodePassword])
          ++ (if String.eqb gitopsSecret "" then []
              else ["  GitOps Secret: " +:+ gitopsSecret])
        else [])
  else [].

(** [RunE] of [newListCmd] (l.23-60): the lines written to the command's
    output and the error returned. *)
Definition run (w : world) : list string * option string :=
  if negb (exists_path bitswanConfig w)
  then ([], Some ("workspaces directory not found: " +:+ bitswanConfig))
  else
    match readdir_workspaces E with
    | Some e => ([], Some ("failed to read workspaces directory: " +:+ e))
    | None => (flat_map (print_entry w) (read_dir bitswanConfig (fs w)), None)
    end.

End Run.
End List.

(* ===================================================================== *)
(** ** Sample hosts and environments *)
(* ===================================================================== *)

Module Sample.
Import Host.

(** An environment in which every call succeeds, but for the four outcomes
    given: the admin probe, the two stack start-ups and the removal done by
    [cleanup]. *)
Definition host_env (probe : Init.error) (caddyUp composeUp : Ownership.run_result)
    (removeAll : Init.error) : Init.env :=
  {| Init.HOME := "/home/u";
     Init.mkdir_config := None;
     Init.network_ls := inr [];
     Init.network_create := Ownership.RunOk;
     Init.admin_probe := probe;
     Init.mkdir_caddy := None;
     Init.write_caddyfile := None;
     Init.CreateCaddyDockerComposeFile := fun _ d => inr ("caddy for " +:+ d);
     Init.write_caddy_compose := None;
     Init.chdir_caddy := None;
     Init.mkdir_caddy_certs := None;
     Init.caddy_up := caddyUp;
     Init.caddy_up_output := "";
     Init.InitCaddy_result := None;
     Init.mkdir_temp := inr "/tmp/certs-1";
     Init.getwd := None;
     Init.chdir_temp := None;
     Init.mkcert := Ownership.RunOk;
     Init.mkcert_key := "KEY";
     Init.mkcert_cert := "CERT";
     Init.rename_key := None;
     Init.rename_cert := None;
     Init.mkdir_certs_store := None;
     Init.mkdir_certs_domain := None;
     Init.readdir_certs := None;
     Init.read_cert := fun _ => None;
     Init.write_cert := fun _ => None;
     Init.mkdir_gitops := None;
     Init.git_clone := Ownership.RunOk;
     Init.mkdir_workspace := None;
     Init.git_init := Ownership.RunOk;
     Init.chown_workspace := Ownership.RunOk;
     Init.stat_workspace := Ownership.StatInfo (Ownership.SysStat (Ownership.mkStat 1000 1000));
     Init.worktree_add := Ownership.RunOk;
     Init.safe_directory := Ownership.RunOk;
     Init.empty_commit := Ownership.RunOk;
     Init.push_upstream := Ownership.RunOk;
     Init.mkdir_secrets := None;
     Init.chown_secrets := Ownership.RunOk;
     Init.stat_secrets := Ownership.StatInfo (Ownership.SysStat (Ownership.mkStat 1000 1000));
     Init.GetLatestDockerHubVersion := fun _ => inr "2024-11-git-abc123";
     Init.mkdir_deployment := None;
     Init.AddCaddyRecords_result := None;
     Init.CreateDockerComposeFile := fun _ _ _ _ _ _ => inr ("services: {}", "s3cr3t");
     Init.write_compose := None;
     Init.chdir_deployment := None;
     Init.compose_up := composeUp;
     Init.GetEditorPassword := fun _ _ => inr "editor-password";
     Init.remove_all_result := fun _ => removeAll |}.

(** Every call succeeds; no proxy is running yet. *)
Definition all_ok : Init.env :=
  host_env (Some "connection refused") Ownership.RunOk Ownership.RunOk None.

(** Every call succeeds; the proxy's admin endpoint answers. *)
Definition proxy_up : Init.env :=
  host_env None Ownership.RunOk Ownership.RunOk None.

(** The proxy is up; starting the workspace's stack fails; [removeAll] is
    the outcome of the removal done by [cleanup]. *)
Definition stack_fails (removeAll : Init.error) : Init.env :=
  host_env None Ownership.RunOk (Ownership.RunErr "exit status 1") removeAll.

(** No proxy is running and starting its stack fails. *)
Definition proxy_start_fails : Init.env :=
  host_env (Some "connection refused") (Ownership.RunErr "exit status 1")
    Ownership.RunOk None.

Definition plain_options : Init.initOptions :=
  {| Init.remoteRepo := ""; Init.domain := "demo.example.com"; Init.certsDir := "";
     Init.mkCerts := false; Init.noIde := false;
     Init.gitopsImage := ""; Init.editorImage := "" |}.

(** A host on which nothing has been set up. *)
Definition fresh : world := World ∅ "/" [] [] ∅.

(** A host whose config root holds a proxy directory and a workspace
    [demo]. *)
Definition with_demo : world :=
  World (mkdir_all "/home/u/.config/bitswan/demo"
           (write_file "/home/u/.config/bitswan/caddy/Caddyfile" "old"
              (mkdir_all "/home/u/.config/bitswan/caddy" ∅)))
        "/" [] [] ∅.

(** A host with an empty [workspaces] directory under the config root. *)
Definition with_workspaces_dir : world :=
  World (mkdir_all "/home/u/.config/bitswan/workspaces" ∅) "/" [] [] ∅.

Definition list_env : List.env :=
  {| List.HOME := "/home/u";
     List.readdir_workspaces := None;
     List.getVSCodePassword := fun _ => ("", Some "service not running");
     List.read_compose := fun _ => None;
     List.secret_in_compose := fun _ _ => ("", Some "GitOps secret not found") |}.


End Sample.

(* ===================================================================== *)
(** ** Vocabulary of the properties *)
(* ===================================================================== *)

Module Stages.
Import Host Go Init.
Local Open Scope go_scope.

(** Everything [run] does before the workspace-scoped stages: l.164-335.
    Its value is [inputCertsDir]. *)
Definition before_workspace (E : env) (o : initOptions) : M string :=
  NetworkProvisioner E ;; ProxyBootstrapper E o ;; CertificateInstaller E o.

Definition conflict_error (args : list string) : error :=
  Some ("GitOps with this name was already initialized: " +:+ gitopsName args).

(** A path exists in a world. *)
Definition present (p : string) (w : world) : Prop := is_Some (fs w !! clean p).

(** [c] relates every world it starts in to the world it ends in, however
    it ends. *)
Definition Respects {A} (R : world -> world -> Prop) (c : M A) : Prop :=
  forall w, R w (snd (c w)).

(** No existing path disappears. *)
Definition keeps_paths (w w' : world) : Prop :=
  forall p : string, is_Some (fs w !! p) -> is_Some (fs w' !! p).

(** The same, for a change of the file system alone. *)
Definition only_adds (f : gmap string node -> gmap string node) : Prop :=
  forall (m : gmap string node) (p : string), is_Some (m !! p) -> is_Some (f m !! p).


(** The fallible steps of [DeploymentComposer], in source order. *)
Inductive deploy_step : Type :=
  | ResolveImages          (* l.437, l.446 *)
  | MakeDeploymentDir      (* l.455 *)
  | RegisterRoutes         (* l.459 *)
  | RenderCompose          (* l.464 *)
  | WriteCompose           (* l.477 *)
  | EnterDeploymentDir     (* l.481 *)
  | StartStack             (* l.497 *)
  | ReadEditorPassword.    (* l.512 *)

(** The image reference [resolve_image] arrives at, if it does. *)
Definition image_ref (E : env) (given repo url : string) : option string :=
  if String.eqb given "" then
    match GetLatestDockerHubVersion E url with
    | inl _ => None
    | inr latest => Some (repo +:+ latest)
    end
  else Some given.

(** The first step of [DeploymentComposer] that fails under [E]; the
    outcomes of its steps do not depend on the world. *)
Definition first_failure (E : env) (o : initOptions) (args : list string)
  : option deploy_step :=
  match image_ref E (gitopsImage o) "bitswan/gitops:"
          "https://hub.docker.com/v2/repositories/bitswan/gitops/tags/" with
  | None => Some ResolveImages
  | Some gi =>
  match image_ref E (editorImage o) "bitswan/bitswan-editor:"
          "https://hub.docker.com/v2/repositories/bitswan/bitswan-editor/tags/" with
  | None => Some ResolveImages
  | Some ei =>
  match mkdir_deployment E with
  | Some _ => Some MakeDeploymentDir
  | None =>
  match AddCaddyRecords_result E with
  | Some _ => Some RegisterRoutes
  | None =>
  match CreateDockerComposeFile E (gitopsConfig E args) (gitopsName args) gi ei
          (domain o) (noIde o) with
  | inl _ => Some RenderCompose
  | inr _ =>
  match write_compose E with
  | Some _ => Some WriteCompose
  | None =>
  match chdir_deployment E with
  | Some _ => Some EnterDeploymentDir
  | None =>
  match compose_up E with
  | Ownership.RunErr _ => Some StartStack
  | Ownership.RunOk =>
      if negb (noIde o) then
        match GetEditorPassword E (projectName args) (gitopsName args) with
        | inl _ => Some ReadEditorPassword
        | inr _ => None
        end
      else None
  end end end end end end end end.

(** The failures the rollback-completeness property names: image
    resolution, route registration, compose rendering, writing the stack
    definition, starting the stack. *)
Definition named_failure (s : deploy_step) : bool :=
  match s with
  | ResolveImages | RegisterRoutes | RenderCompose | WriteCompose | StartStack => true
  | MakeDeploymentDir | EnterDeploymentDir | ReadEditorPassword => false
  end.

(** [WorkspaceProvisioner] and [SecretManager] went through from [w] and
    left [w1]. *)
Definition provisioned (E : env) (o : initOptions) (args : list string)
    (w w1 : world) : Prop :=
  (WorkspaceProvisioner E o args ;; SecretManager E args) w = (Ok tt, w1).

(** Rollback completeness as the specification words it: whenever
    [DeploymentComposer] fails in one of the named ways after the workspace
    was provisioned, the workspace's config directory is gone when the call
    returns. *)
Definition rollback_complete : Prop :=
  forall E o args (d : string) (w w1 : world) (s : deploy_step),
    provisioned E o args w w1 ->
    first_failure E o args = Some s ->
    named_failure s = true ->
    ~ present (gitopsConfig E args) (snd (workspace_scope E o args d w)).


End Stages.

(* ===================================================================== *)
(** ** What a regular expression matches *)
(* ===================================================================== *)

Module RegexLang.
Import Dockerhub.

(** The language of a regular expression, against which the matcher of
    [Dockerhub] is checked. *)
Inductive matches : regex -> string -> Prop :=
  | MEps : matches REps ""
  | MClass (cl : list (ascii * ascii)) (c : ascii) :
      in_class c cl = true -> matches (RClass cl) (String c "")
  | MCat (a b : regex) (s1 s2 : string) :
      matches a s1 -> matches b s2 -> matches (RCat a b) (s1 +:+ s2)
  | MAltL (a b : regex) (s : string) : matches a s -> matches (RAlt a b) s
  | MAltR (a b : regex) (s : string) : matches b s -> matches (RAlt a b) s
  | MStarNil (a : regex) : matches (RStar a) ""
  | MStarApp (a : regex) (s1 s2 : string) :
      matches a s1 -> matches (RStar a) s2 -> matches (RStar a) (s1 +:+ s2).

(** Every byte of [s] is in the class [cl]. *)
Fixpoint all_in (cl : list (ascii * ascii)) (s : string) : bool :=
  match s with
  | EmptyString => true
  | String c s' => in_class c cl && all_in cl s'
  end.

Definition digits : list (ascii * ascii) := [("0"%char, "9"%char)].
Definition hexdigits : list (ascii * ascii) :=
  [("a"%char, "f"%char); ("A"%char, "F"%char); ("0"%char, "9"%char)].

(** The shape of a dated-build tag: four digits, a dash, one or more
    digits, ["-git-"], one or more hexadecimal digits, and nothing else. *)
Definition dated_build (tag : string) : Prop :=
  exists (d1 d2 d3 d4 : ascii) (month hash : string),
    tag = String d1 (String d2 (String d3 (String d4
            ("-" +:+ month +:+ "-git-" +:+ hash))))
    /\ all_in digits (String d1 (String d2 (String d3 (String d4 "")))) = true
    /\ month <> "" /\ all_in digits month = true
    /\ hash <> "" /\ all_in hexdigits hash = true.

End RegexLang.

(* ===================================================================== *)
(** ** Vocabulary of the further properties *)
(* ===================================================================== *)

Module More.
Import Host Go Init Stages.

(** A line of the network listing that parses and names another network. *)
Definition other_network (name : string) (l : ls_line) : Prop :=
  exists n, l = Network n /\ n <> name.

Definition network_ls_command : command :=
  Cmd None ["docker"; "network"; "ls"; "--format=json"].

Definition network_create_command : command :=
  Cmd None ["docker"; "network"; "create"; "bitswan_network"].

(** The network check of l.174 comes back without error. *)
Definition network_check_ok (E : env) : Prop :=
  exists lines, network_ls E = inr lines
                /\ snd (scan_networks lines "bitswan_network") = None.

(** The config root is there or can be made (l.166-170). *)
Definition config_root_ok (E : env) (w : world) : Prop :=
  exists_path (bitswanConfig E) w = true \/ mkdir_config E = None.

(** The options with another [--certs-dir]. *)
Definition with_certsDir (dir : string) (o : initOptions) : initOptions :=
  {| remoteRepo := remoteRepo o; domain := domain o; certsDir := dir;
     mkCerts := mkCerts o; noIde := noIde o;
     gitopsImage := gitopsImage o; editorImage := editorImage o |}.

Definition mkcert_command (dom : string) : command :=
  Cmd None ["mkcert"; "*." +:+ dom].

(** The world after one more subprocess was run, before its effect. *)
Definition ran (c : command) (w : world) : world :=
  World (fs w) (cwd w) (c :: execs w) (api w) (worktree_branch w).

(** Steps of [DeploymentComposer] that come after the routes were
    registered with success. *)
Definition after_routes (s : deploy_step) : bool :=
  match s with
  | RenderCompose | WriteCompose | EnterDeploymentDir | StartStack | ReadEditorPassword =>
      true
  | ResolveImages | MakeDeploymentDir | RegisterRoutes => false
  end.

End More.

(* ===================================================================== *)
(** ** Further sample environments *)
(* ===================================================================== *)

Module Sample2.
Import Host.

(** [E] with six of its outcomes replaced: the network listing, the
    admin-API initialisation, the reading of the certificate directory, the
    chown and stat of the workspace checkout, and the version lookup. *)
Definition tweak (E : Init.env) (net : string + list Init.ls_line)
    (initCaddy readdir : Init.error) (chownWs : Ownership.run_result)
    (statWs : Ownership.stat_result) (lookup : string -> string + string) : Init.env :=
  {| Init.HOME := Init.HOME E;
     Init.mkdir_config := Init.mkdir_config E;
     Init.network_ls := net;
     Init.network_create := Init.network_create E;
     Init.admin_probe := Init.admin_probe E;
     Init.mkdir_caddy := Init.mkdir_caddy E;
     Init.write_caddyfile := Init.write_caddyfile E;
     Init.CreateCaddyDockerComposeFile := Init.CreateCaddyDockerComposeFile E;
     Init.write_caddy_compose := Init.write_caddy_compose E;
     Init.chdir_caddy := Init.chdir_caddy E;
     Init.mkdir_caddy_certs := Init.mkdir_caddy_certs E;
     Init.caddy_up := Init.caddy_up E;
     Init.caddy_up_output := Init.caddy_up_output E;
     Init.InitCaddy_result := initCaddy;
     Init.mkdir_temp := Init.mkdir_temp E;
     Init.getwd := Init.getwd E;
     Init.chdir_temp := Init.chdir_temp E;
     Init.mkcert := Init.mkcert E;
     Init.mkcert_key := Init.mkcert_key E;
     Init.mkcert_cert := Init.mkcert_cert E;
     Init.rename_key := Init.rename_key E;
     Init.rename_cert := Init.rename_cert E;
     Init.mkdir_certs_store := Init.mkdir_certs_store E;
     Init.mkdir_certs_domain := Init.mkdir_certs_domain E;
     Init.readdir_certs := readdir;
     Init.read_cert := Init.read_cert E;
     Init.write_cert := Init.write_cert E;
     Init.mkdir_gitops := Init.mkdir_gitops E;
     Init.git_clone := Init.git_clone E;
     Init.mkdir_workspace := Init.mkdir_workspace E;
     Init.git_init := Init.git_init E;
     Init.chown_workspace := chownWs;
     Init.stat_workspace := statWs;
     Init.worktree_add := Init.worktree_add E;
     Init.safe_directory := Init.safe_directory E;
     Init.empty_commit := Init.empty_commit E;
     Init.push_upstream := Init.push_upstream E;
     Init.mkdir_secrets := Init.mkdir_secrets E;
     Init.chown_secrets := Init.chown_secrets E;
     Init.stat_secrets := Init.stat_secrets E;
     Init.GetLatestDockerHubVersion := lookup;
     Init.mkdir_deployment := Init.mkdir_deployment E;
     Init.AddCaddyRecords_result := Init.AddCaddyRecords_result E;
     Init.CreateDockerComposeFile := Init.CreateDockerComposeFile E;
     Init.write_compose := Init.write_compose E;
     Init.chdir_deployment := Init.chdir_deployment E;
     Init.compose_up := Init.compose_up E;
     Init.GetEditorPassword := Init.GetEditorPassword E;
     Init.remove_all_result := Init.remove_all_result E |}.

(** The network listing cannot be run. *)
Definition no_docker : Init.env :=
  tweak Sample.all_ok (inl "exit status 1") None None Ownership.RunOk
    (Ownership.StatErr "") (fun _ => inr "2024-11-git-abc123").

(** The listing shows the shared network, followed by a line that does not
    parse. *)
Definition network_there : Init.env :=
  tweak (Sample.host_env (Some "connection refused") Ownership.RunOk Ownership.RunOk None)
    (inr [Init.Network "bridge"; Init.Network "bitswan_network"; Init.BadJSON "EOF"])
    None None Ownership.RunOk (Ownership.StatErr "") (fun _ => inr "2024-11-git-abc123").

(** No proxy is running, and the admin-API initialisation fails once its
    stack is up. *)
Definition admin_init_fails : Init.env :=
  tweak Sample.all_ok (inr []) (Some "connection refused") None Ownership.RunOk
    (Ownership.StatErr "") (fun _ => inr "2024-11-git-abc123").

Definition after_failed_init : world :=
  snd (Init.ProxyBootstrapper admin_init_fails Sample.plain_options Sample.fresh).

Definition after_failed_start : world :=
  snd (Init.ProxyBootstrapper Sample.proxy_start_fails Sample.plain_options Sample.fresh).

(** The proxy is up, and the directory given with [--certs-dir] cannot be
    read. *)
Definition certs_unreadable : Init.env :=
  tweak Sample.proxy_up (inr []) None (Some "permission denied") Ownership.RunOk
    (Ownership.StatErr "") (fun _ => inr "2024-11-git-abc123").

Definition certs_options : Init.initOptions :=
  {| Init.remoteRepo := ""; Init.domain := "demo.example.com"; Init.certsDir := "/certs";
     Init.mkCerts := false; Init.noIde := false;
     Init.gitopsImage := ""; Init.editorImage := "" |}.

Definition mkcerts_options : Init.initOptions :=
  {| Init.remoteRepo := ""; Init.domain := "demo.example.com"; Init.certsDir := "/certs";
     Init.mkCerts := true; Init.noIde := false;
     Init.gitopsImage := ""; Init.editorImage := "" |}.

(** The proxy is up; the chown of the workspace checkout fails and the
    checkout belongs to root. *)
Definition chown_denied : Init.env :=
  tweak Sample.proxy_up (inr []) None None (Ownership.RunErr "exit status 1")
    (Ownership.StatInfo (Ownership.SysStat (Ownership.mkStat 0 0)))
    (fun _ => inr "2024-11-git-abc123").

Definition after_chown_denied : world :=
  snd (Init.workspace_scope chown_denied Sample.plain_options ["demo"] "" Sample.fresh).

(** [E] with another version lookup. *)
Definition with_lookup (lookup : string -> string + string) (E : Init.env) : Init.env :=
  tweak E (Init.network_ls E) (Init.InitCaddy_result E) (Init.readdir_certs E)
    (Init.chown_workspace E) (Init.stat_workspace E) lookup.

Definition explicit_images : Init.initOptions :=
  {| Init.remoteRepo := ""; Init.domain := "demo.example.com"; Init.certsDir := "";
     Init.mkCerts := false; Init.noIde := false;
     Init.gitopsImage := "registry.local/gitops:dev";
     Init.editorImage := "registry.local/editor:dev" |}.

End Sample2.

(* ===================================================================== *)
(** ** cmd/list.go: the two credential look-ups *)
(* ===================================================================== *)

Module Credentials.
Import Host.

(** What [yaml.Unmarshal] puts into an [interface{}]: a string, a sequence
    ([[]interface{}]), a mapping with string keys
    ([map[string]interface{}]), or anything else (numbers, booleans, null,
    mappings with other keys). *)
#[warnings="-register-all"]
Inductive yaml : Type :=
  | YStr (s : string)
  | YSeq (items : list yaml)
  | YMap (entries : list (string * yaml))
  | YOther.

(** [m[key]] on a decoded mapping. *)
Fixpoint map_get (key : string) (entries : list (string * yaml)) : option yaml :=
  match entries with
  | [] => None
  | (k, v) :: rest => if String.eqb k key then Some v else map_get key rest
  end.

(** [strings.SplitN(s, "=", 2)]. *)
Fixpoint cut_at_equals (s : string) : option (string * string) :=
  match s with
  | EmptyString => None
  | String c s' =>
      if Ascii.eqb c "="%char then Some (EmptyString, s')
      else match cut_at_equals s' with
           | Some (a, b) => Some (String c a, b)
           | None => None
           end
  end.

Definition SplitN2 (s : string) : list string :=
  match cut_at_equals s with
  | Some (a, b) => [a; b]
  | None => [s]
  end.

Definition secret_prefix : string := "BITSWAN_DEPLOY_SECRET=".

(** The loop of l.124-136 over the [environment] sequence. *)
Fixpoint scan_environment (items : list yaml) : string * option string :=
  match items with
  | [] => ("", Some "GitOps secret not found")
  | YStr envVar :: rest =>
      if is_prefix secret_prefix envVar then
        match SplitN2 envVar with
        | [_; secret] => (secret, None)
        | _ => scan_environment rest
        end
      else scan_environment rest
  | _ :: rest => scan_environment rest
  end.

(** [getGitOpsSecret] (l.92-139), given what [os.ReadFile] returned and
    what [yaml.Unmarshal] makes of file contents. *)
Definition getGitOpsSecret (read : string + string)
    (unmarshal : string -> string + list (string * yaml)) (workspace : string)
  : string * option string :=
  match read with
  | inl err => ("", Some err)
  | inr data =>
      match unmarshal data with
      | inl err => ("", Some err)
      | inr composeConfig =>
          match map_get "services" composeConfig with
          | Some (YMap services) =>
              match map_get ("bitswan-editor-" +:+ workspace) services with
              | Some (YMap editorService) =>
                  match map_get "environment" editorService with
                  | Some (YSeq env) => scan_environment env
                  | _ => ("", Some "environment section not found")
                  end
              | _ => ("", Some "editor service not found")
              end
          | _ => ("", Some "services section not found")
          end
      end
  end.

(** An entry of the [environment] sequence that the loop passes over. *)
Definition passed_over (item : yaml) : Prop :=
  match item with
  | YStr s => is_prefix secret_prefix s = false
  | _ => True
  end.

(** The compose file of a workspace decodes to a tree whose editor service
    has the [environment] sequence [env]. *)
Definition editor_environment (unmarshal : string -> string + list (string * yaml))
    (data workspace : string) (env : list yaml) : Prop :=
  exists composeConfig services editorService,
    unmarshal data = inr composeConfig
    /\ map_get "services" composeConfig = Some (YMap services)
    /\ map_get ("bitswan-editor-" +:+ workspace) services = Some (YMap editorService)
    /\ map_get "environment" editorService = Some (YSeq env).

Definition newline : ascii := "010"%char.

(** The bytes up to the end of the line: what a greedy [(.+)] takes, [.]
    being any byte but a newline. *)
Fixpoint take_line (s : string) : string :=
  match s with
  | EmptyString => EmptyString
  | String c s' => if Ascii.eqb c newline then EmptyString else String c (take_line s')
  end.

(** [regexp.MustCompile(`password: (.+)`).FindStringSubmatch(output)],
    reduced to the submatch: the leftmost place where ["password: "] is
    followed by at least one byte of the same line, and that line's rest. *)
Fixpoint FindPassword (output : string) : option string :=
  match output with
  | EmptyString => None
  | String c rest =>
      match drop_prefix "password: " output with
      | Some after =>
          match take_line after with
          | EmptyString => FindPassword rest
          | captured => Some captured
          end
      | None => FindPassword rest
      end
  end.

(** [getVSCodePassword] (l.68-90), given how the two docker subprocesses
    ended: the [ps] check, and the [exec ... cat] with its combined
    output. *)
Definition getVSCodePassword (check : Ownership.run_result) (exec : string + string)
  : string * option string :=
  match check with
  | Ownership.RunErr _ => ("", Some "service not running")
  | Ownership.RunOk =>
      match exec with
      | inl err => ("", Some err)
      | inr output =>
          match FindPassword output with
          | Some password => (password, None)
          | None => ("", Some "password not found in config")
          end
      end
  end.

Fixpoint no_newline (s : string) : bool :=
  match s with
  | EmptyString => true
  | String c s' => negb (Ascii.eqb c newline) && no_newline s'
  end.

(** ["password: "] followed by a byte of the same line occurs in [s] right
    after the first [n] bytes. *)
Definition password_at (n : nat) (s : string) : Prop :=
  exists pre c tail,
    s = pre +:+ "password: " +:+ String c tail /\ c <> newline /\ String.length pre = n.

(** A sample compose tree for the workspace [demo]. *)
Definition sample_compose (data : string) : string + list (string * yaml) :=
  inr [("services",
        YMap [("gitops", YMap []);
              ("bitswan-editor-demo",
               YMap [("image", YStr "bitswan/bitswan-editor:2024-11-git-abc123");
                     ("environment",
                      YSeq [YStr "BITSWAN_DEPLOY_URL=https://demo.example.com";
                            YOther;
                            YStr "BITSWAN_DEPLOY_SECRET=s3=cr3t"])])])].

End Credentials.

(* ===================================================================== *)
(** ** Properties *)
(* ===================================================================== *)

Section VersionResolver.
Import Dockerhub.




End VersionResolver.

Section ChangeOwnership.
Import Ownership.

(** C8: when the chown subprocess fails, [changeOwnership] returns nil
    exactly when the stat succeeds and the directory's owner is the target
    uid; in every other case it returns an error. *)
Theorem C8_chown_failure_fallback :
  forall (err : string) (r : string + Stat_t) (uid gid : nat),
    (changeOwnership (RunErr err) (linux_stat r) uid gid = None
       <-> exists st, r = inr st /\ Uid st = uid)
    /\ ((~ exists st, r = inr st /\ Uid st = uid)
        -> exists msg, changeOwnership (RunErr err) (linux_stat r) uid gid = Some msg).
Proof.
  intros err [e|st] uid gid; simpl.
  - split.
    + split; [discriminate | intros (st & H & _); discriminate].
    + intros _. eexists; reflexivity.
  - destruct (Nat.eqb_spec (Uid st) uid) as [Heq|Hne].
    + split.
      * split; [intros _; exists st; auto | reflexivity].
      * intros H. exfalso. apply H. exists st; auto.
    + split.
      * split; [discriminate | intros (st' & H & Hu); inversion H; subst; contradiction].
      * intros _. eexists; reflexivity.
Qed.

Lemma C8_chown_failure_witness :
  changeOwnership (RunErr "exit status 1") (linux_stat (inr (mkStat 1000 0))) 1000 1000
    = None
  /\ exists msg,
       changeOwnership (RunErr "exit status 1") (linux_stat (inr (mkStat 0 0))) 1000 1000
         = Some msg.
Proof.
  split.
  - apply (proj2 (proj1 (C8_chown_failure_fallback "exit status 1"
                           (inr (mkStat 1000 0)) 1000 1000))).
    exists (mkStat 1000 0). split; reflexivity.
  - apply (proj2 (C8_chown_failure_fallback "exit status 1" (inr (mkStat 0 0)) 1000 1000)).
    intros (st & H & Hu). injection H as <-. discriminate Hu.
Defined.

End ChangeOwnership.

Section Arguments.
Import Init.

(** C10: [init] accepts one or two positional arguments and no other
    number; with one argument the workspace name is that argument, with two
    it is "gitops" whatever the arguments are, and the whole run is then the
    same for any two arguments. *)
Theorem C10_two_arguments_use_default_name :
  forall (a b : string),
    accepts_args [a] = true
    /\ accepts_args [a; b] = true
    /\ accepts_args [] = false
    /\ (forall c rest, accepts_args (a :: b :: c :: rest) = false)
    /\ gitopsName [a] = a
    /\ gitopsName [a; b] = "gitops"
    /\ (forall E, gitopsConfig E [a; b] = bitswanConfig E +:+ "gitops")
    /\ (forall E o a' b', run E o [a; b] = run E o [a'; b']).
Proof.
  intros a b. repeat split; reflexivity.
Qed.

End Arguments.

Section ControlFlow.
Import Host Go Init Stages.

Lemma bind_Ok {A B} (c : M A) (k : A -> M B) (w w' : world) (a : A) :
  c w = (Ok a, w') -> bind c k w = k a w'.
Proof. intros H. unfold bind. rewrite H. reflexivity. Qed.

Lemma bind_Ret {A B} (c : M A) (k : A -> M B) (w w' : world) (e : option string) :
  c w = (Ret e, w') -> bind c k w = (Ret e, w').
Proof. intros H. unfold bind. rewrite H. reflexivity. Qed.

Lemma bind_Pan {A B} (c : M A) (k : A -> M B) (w w' : world) (v : string) :
  c w = (Pan v, w') -> bind c k w = (Pan v, w').
Proof. intros H. unfold bind. rewrite H. reflexivity. Qed.

Lemma defer_recover_idem {A} (h1 h2 : world -> world) (c : M A) (w : world) :
  defer_recover h1 (defer_recover h2 c) w = defer_recover h2 c w.
Proof.
  unfold defer_recover. destruct (c w) as [[a|e|v] w']; reflexivity.
Qed.

(** Once the earlier stages are through, [run] is the workspace scope: the
    handler of l.199 sees no panic, the one of l.345 took it. *)
Lemma run_after_prefix E o args (w w1 : world) (d : string) :
  before_workspace E o w = (Ok d, w1) ->
  run E o args w = workspace_scope E o args d w1.
Proof.
  unfold before_workspace, run, proxy_scope, bind. intros H.
  destruct (NetworkProvisioner E w) as [[[]|e|v] w0]; try discriminate.
  unfold defer_recover at 1.
  destruct (ProxyBootstrapper E o w0) as [[[]|e|v] wp]; try discriminate.
  destruct (CertificateInstaller E o wp) as [[d'|e|v] wc]; try discriminate.
  inversion H; subst.
  unfold workspace_scope, defer_recover.
  destruct (workspace_stages E o args d w1) as [[[]|e|v] w2]; reflexivity.
Qed.

End ControlFlow.

Section ConflictGuard.
Import Host Go Init Stages.

(** C1: when the workspace's config directory already exists as the
    workspace stages begin, [run] returns the conflict error at once and
    the world is the one the earlier stages left: nothing is created,
    nothing is removed, neither deferred handler cleans up. *)
Theorem C1_conflict_leaves_world_unchanged :
  forall E o args (w w1 : world) (d : string),
    before_workspace E o w = (Ok d, w1) ->
    exists_path (gitopsConfig E args) w1 = true ->
    workspace_scope E o args d w1 = (Ret (conflict_error args), w1)
    /\ run E o args w = (Ret (conflict_error args), w1).
Proof.
  intros E o args w w1 d Hpre Hex.
  assert (Hws : workspace_scope E o args d w1 = (Ret (conflict_error args), w1)).
  { unfold workspace_scope, defer_recover, workspace_stages, WorkspaceProvisioner.
    unfold bind at 1. unfold bind at 1. unfold os_Stat_IsNotExist.
    rewrite Hex. reflexivity. }
  split; [exact Hws|].
  rewrite (run_after_prefix _ _ _ _ _ _ Hpre). exact Hws.
Qed.

Lemma C1_conflict_witness :
  run Sample.proxy_up Sample.plain_options ["demo"] Sample.with_demo
  = (Ret (conflict_error ["demo"]),
     World (fs Sample.with_demo) "/"
       [Cmd None ["docker"; "network"; "create"; "bitswan_network"];
        Cmd None ["docker"; "network"; "ls"; "--format=json"]] [] ∅).
Proof.
  refine (proj2 (C1_conflict_leaves_world_unchanged Sample.proxy_up Sample.plain_options
                   ["demo"] Sample.with_demo _ "" _ _)).
  - vm_compute. reflexivity.
  - vm_compute. reflexivity.
Defined.

End ConflictGuard.

(** *** Facts about path strings *)

Section PathFacts.
Import Host.

Lemma append_cons (x : ascii) (a b : string) : String x a +:+ b = String x (a +:+ b).
Proof. reflexivity. Qed.

Lemma append_nil_l (b : string) : "" +:+ b = b.
Proof. reflexivity. Qed.

Lemma append_length (a b : string) :
  String.length (a +:+ b) = String.length a + String.length b.
Proof.
  induction a as [|c a IH]; [reflexivity|].
  rewrite append_cons. simpl. rewrite IH. reflexivity.
Qed.

Lemma append_assoc (a b c : string) : (a +:+ b) +:+ c = a +:+ (b +:+ c).
Proof.
  induction a as [|x a IH]; [reflexivity|].
  rewrite !append_cons, IH. reflexivity.
Qed.

Lemma append_nil_r (a : string) : a +:+ "" = a.
Proof.
  induction a as [|x a IH]; [reflexivity|].
  rewrite append_cons, IH. reflexivity.
Qed.

Lemma append_inv_head (a b c : string) : a +:+ b = a +:+ c -> b = c.
Proof.
  induction a as [|x a IH]; intros H; [exact H|].
  rewrite !append_cons in H. injection H as H. exact (IH H).
Qed.

Lemma is_prefix_app (a b : string) :
  is_prefix a b = true <-> exists r, b = a +:+ r.
Proof.
  revert b. induction a as [|x a IH]; intros b.
  - simpl. split; [intros _; exists b; reflexivity | reflexivity].
  - destruct b as [|y b]; simpl.
    + split; [discriminate | intros [r H]; discriminate].
    + destruct (Ascii.eqb_spec x y) as [->|Hne]; simpl.
      * rewrite IH. split; intros [r H]; exists r.
        -- rewrite append_cons, H. reflexivity.
        -- rewrite append_cons in H. injection H as H. exact H.
      * split; [discriminate|].
        intros [r H]. rewrite append_cons in H. injection H as H1 H2.
        symmetry in H1. contradiction.
Qed.


Lemma rstrip_app_keep (a b : string) :
  rstrip b <> "" -> rstrip (a +:+ b) = a +:+ rstrip b.
Proof.
  intros Hb. induction a as [|x a IH]; [reflexivity|].
  rewrite !append_cons. simpl. rewrite IH.
  destruct (a +:+ rstrip b) as [|y t] eqn:Hab; [|reflexivity].
  destruct a; [|rewrite append_cons in Hab; discriminate].
  rewrite append_nil_l in Hab. contradiction.
Qed.


Lemma clean_rstrip (p : string) : rstrip p <> "" -> clean p = rstrip p.
Proof. unfold clean. destruct (rstrip p); [contradiction | reflexivity]. Qed.

Lemma clean_app_keep (a b : string) :
  rstrip b <> "" -> clean (a +:+ b) = a +:+ rstrip b.
Proof.
  intros Hb. rewrite clean_rstrip; rewrite (rstrip_app_keep a b Hb); [reflexivity|].
  destruct a; [exact Hb | rewrite append_cons; discriminate].
Qed.

Lemma under_refl (d : string) : under d d = true.
Proof. unfold under. rewrite String.eqb_refl. reflexivity. Qed.




End PathFacts.

(** *** The file-system operations *)

Section FileSystemFacts.
Import Host Stages.

Lemma add_dir_keeps (p : string) : only_adds (add_dir p).
Proof.
  intros m q Hq. unfold add_dir. destruct (m !! p) eqn:Hp; [exact Hq|].
  rewrite lookup_insert_is_Some. destruct (decide (p = q)); auto.
Qed.

Lemma fold_add_dir_keeps (l : list string) : only_adds (fun m => foldr add_dir m l).
Proof.
  induction l as [|a l IH]; intros m q Hq; simpl; [exact Hq|].
  apply add_dir_keeps, IH, Hq.
Qed.

Lemma mkdir_all_keeps (p : string) : only_adds (mkdir_all p).
Proof.
  intros m q Hq. unfold mkdir_all. apply add_dir_keeps.
  apply (fold_add_dir_keeps (ancestors (clean p))), Hq.
Qed.

Lemma mkdir_keeps (p : string) : only_adds (mkdir p).
Proof. intros m q Hq. apply add_dir_keeps, Hq. Qed.

Lemma write_file_keeps (p d : string) : only_adds (write_file p d).
Proof.
  intros m q Hq. unfold write_file. rewrite lookup_insert_is_Some.
  destruct (decide (clean p = q)); auto.
Qed.

Lemma remove_all_lookup (d q : string) (m : gmap string node) :
  remove_all d m !! q = if under (clean d) q then None else m !! q.
Proof.
  unfold remove_all. destruct (under (clean d) q) eqn:Hu.
  - apply map_lookup_filter_None. right. intros x _. simpl. rewrite Hu. discriminate.
  - destruct (m !! q) as [x|] eqn:Hq.
    + apply map_lookup_filter_Some. split; [exact Hq | exact Hu].
    + apply map_lookup_filter_None. left. exact Hq.
Qed.

Lemma remove_all_gone (d : string) (m : gmap string node) :
  remove_all d m !! clean d = None.
Proof. rewrite remove_all_lookup, under_refl. reflexivity. Qed.

Lemma keeps_paths_refl w : keeps_paths w w.
Proof. intros p H. exact H. Qed.

Lemma keeps_paths_trans a b c : keeps_paths a b -> keeps_paths b c -> keeps_paths a c.
Proof. intros H1 H2 p H. apply H2, H1, H. Qed.

End FileSystemFacts.

(** *** Relations every step of a stage preserves *)

Section RespectsRules.
Import Host Go Init Stages.

Variable R : world -> world -> Prop.
Variable good_fs : (gmap string node -> gmap string node) -> Prop.
Variable good_cmd : command -> Prop.

Hypothesis R_refl : forall w, R w w.
Hypothesis R_trans : forall a b c, R a b -> R b c -> R a c.
Hypothesis R_files : forall w f cw wt,
  good_fs f -> R w (World (f (fs w)) cw (execs w) (api w) wt).
Hypothesis R_exec : forall w c,
  good_cmd c -> R w (World (fs w) (cwd w) (c :: execs w) (api w) (worktree_branch w)).
Hypothesis R_api : forall w c,
  R w (World (fs w) (cwd w) (execs w) (c :: api w) (worktree_branch w)).
Hypothesis good_id : good_fs (fun m => m).
Hypothesis good_mkdir_all : forall p, good_fs (mkdir_all p).
Hypothesis good_mkdir : forall p, good_fs (mkdir p).
Hypothesis good_write : forall p d, good_fs (write_file p d).
Hypothesis good_comp : forall f g, good_fs f -> good_fs g -> good_fs (fun m => f (g m)).

Lemma Respects_ret {A} (a : A) : Respects R (ret a).
Proof. intros w. apply R_refl. Qed.

Lemma Respects_return {A} (e : option string) : Respects R (@return_ A e).
Proof. intros w. apply R_refl. Qed.

Lemma Respects_panic {A} (v : string) : Respects R (@panic A v).
Proof. intros w. apply R_refl. Qed.

Lemma Respects_bind {A B} (c : M A) (k : A -> M B) :
  Respects R c -> (forall a, Respects R (k a)) -> Respects R (bind c k).
Proof.
  intros Hc Hk w. unfold bind. specialize (Hc w).
  destruct (c w) as [[a|e|v] w']; simpl in *; try exact Hc.
  eapply R_trans; [exact Hc | apply Hk].
Qed.


Lemma R_set_fs w f : good_fs f -> R w (set_fs f w).
Proof. intros H. unfold set_fs. apply R_files, H. Qed.

Lemma Respects_MkdirAll outcome p : Respects R (os_MkdirAll outcome p).
Proof. intros w. unfold os_MkdirAll. destruct outcome; simpl; [apply R_refl | apply R_set_fs, good_mkdir_all]. Qed.

Lemma Respects_Mkdir outcome p : Respects R (os_Mkdir outcome p).
Proof. intros w. unfold os_Mkdir. destruct outcome; simpl; [apply R_refl | apply R_set_fs, good_mkdir]. Qed.

Lemma Respects_WriteFile outcome p d : Respects R (os_WriteFile outcome p d).
Proof. intros w. unfold os_WriteFile. destruct outcome; simpl; [apply R_refl | apply R_set_fs, good_write]. Qed.

Lemma Respects_Chdir outcome p : Respects R (os_Chdir outcome p).
Proof.
  intros w. unfold os_Chdir. destruct outcome; simpl; [apply R_refl|].
  apply (R_files w (fun m => m) p (worktree_branch w)), good_id.
Qed.

Lemma Respects_Stat p : Respects R (os_Stat_IsNotExist p).
Proof. intros w. apply R_refl. Qed.

Lemma Respects_call_api c outcome : Respects R (call_api c outcome).
Proof. intros w. apply R_api. Qed.

Lemma R_subprocess_effect dir argv w : R w (subprocess_effect dir argv w).
Proof.
  unfold subprocess_effect.
  destruct argv as [|a [|b [|c [|d [|e [|f [|g [|h t]]]]]]]]; try apply R_refl.
  - destruct dir; [|apply R_refl]. destruct (bool_decide _); [|apply R_refl].
    apply R_set_fs, good_mkdir.
  - destruct (bool_decide _); [|apply R_refl].
    apply R_set_fs. apply (good_comp (mkdir _) (mkdir_all _)); auto.
  - destruct (bool_decide _); [|apply R_refl].
    apply R_files, good_mkdir_all.
Qed.

Lemma Respects_run_command outcome dir argv :
  good_cmd (Cmd dir argv) -> Respects R (run_command outcome dir argv).
Proof.
  intros Hc w. unfold run_command. destruct outcome; simpl.
  - eapply R_trans; [apply (R_exec w _ Hc) | apply R_subprocess_effect].
  - apply (R_exec w _ Hc).
Qed.

Lemma Respects_or_return msg (c : M error) : Respects R c -> Respects R (or_return msg c).
Proof.
  intros H. apply Respects_bind; [exact H|]. intros [e|]; [apply Respects_return | apply Respects_ret].
Qed.

Lemma Respects_or_panic msg (c : M error) : Respects R c -> Respects R (or_panic msg c).
Proof.
  intros H. apply Respects_bind; [exact H|]. intros [e|]; [apply Respects_panic | apply Respects_ret].
Qed.

Lemma Respects_value_or_panic {A} msg (r : string + A) : Respects R (value_or_panic msg r).
Proof. destruct r; [apply Respects_panic | apply Respects_ret]. Qed.

Lemma Respects_changeOwnership chown stat dir uid gid :
  good_cmd (Cmd None ["chown"; "-R"; pretty uid +:+ ":" +:+ pretty gid; dir]) ->
  Respects R (changeOwnership chown stat dir uid gid).
Proof.
  intros H. apply Respects_bind; [apply Respects_run_command, H | intros; apply Respects_ret].
Qed.

Hypothesis good_other : forall c, c <> caddy_up_command -> good_cmd c.

Lemma last_char_site (n : string) : n +:+ "-site" <> "bitswan-caddy".
Proof.
  intros H.
  assert (Hlen : String.length (n +:+ "-site") = 13) by (rewrite H; reflexivity).
  rewrite append_length in Hlen. simpl in Hlen.
  do 9 (destruct n as [|? n]; simpl in Hlen; try lia).
  vm_compute in H. discriminate H.
Qed.

Lemma compose_up_not_caddy_up args : compose_up_command args <> caddy_up_command.
Proof.
  unfold compose_up_command, caddy_up_command, projectName. intros H.
  injection H as H. exact (last_char_site _ H).
Qed.

Ltac respects_step :=
  first
    [ apply Respects_ret | apply Respects_return | apply Respects_panic
    | apply Respects_or_return | apply Respects_or_panic
    | apply Respects_value_or_panic
    | apply Respects_MkdirAll | apply Respects_Mkdir | apply Respects_WriteFile
    | apply Respects_Chdir | apply Respects_Stat | apply Respects_call_api
    | apply Respects_changeOwnership; apply good_other; discriminate
    | apply Respects_run_command; apply good_other;
      first [ apply compose_up_not_caddy_up | discriminate ]
    | apply Respects_bind; [|intros ?]
    | match goal with
      | |- Respects _ (if ?b then _ else _) => destruct b
      | |- Respects _ (match ?x with _ => _ end) => destruct x
      end ].


Lemma Respects_SecretManager E args : Respects R (SecretManager E args).
Proof. unfold SecretManager. repeat respects_step. Qed.

Lemma Respects_DeploymentComposer E o args d : Respects R (DeploymentComposer E o args d).
Proof. unfold DeploymentComposer, resolve_image. repeat respects_step. Qed.


Hypothesis good_rename : forall a b, good_fs (rename_path a b).
Hypothesis good_remove : forall d, good_fs (remove_all d).












End RespectsRules.

Section RollbackScopes.
Import Host Go Init Stages.









End RollbackScopes.

Section RollbackCompleteness.
Import Host Go Init Stages.

Lemma resolve_image_ok E given repo url msg r w :
  image_ref E given repo url = Some r ->
  resolve_image E given repo url msg w = (Ok r, w).
Proof.
  unfold image_ref, resolve_image. destruct (String.eqb given "").
  - unfold bind, value_or_panic. destruct (GetLatestDockerHubVersion E url); [discriminate|].
    intros H; injection H as <-. reflexivity.
  - intros H; injection H as <-. reflexivity.
Qed.

Lemma resolve_image_fails E given repo url msg w :
  image_ref E given repo url = None ->
  exists v, resolve_image E given repo url msg w = (Pan v, w).
Proof.
  unfold image_ref, resolve_image. destruct (String.eqb given ""); [|discriminate].
  unfold bind, value_or_panic. destruct (GetLatestDockerHubVersion E url); [|discriminate].
  intros _. eexists. reflexivity.
Qed.

(** Every failing step of [DeploymentComposer] but the creation of the
    deployment directory is a panic. *)
Lemma deploy_failure_panics E o args d s w1 :
  first_failure E o args = Some s ->
  s <> MakeDeploymentDir ->
  exists v w2, DeploymentComposer E o args d w1 = (Pan v, w2).
Proof.
  unfold first_failure, DeploymentComposer. intros Hs Hne.
  destruct (image_ref E (gitopsImage o) _ _) as [gi|] eqn:Hgi.
  2:{ destruct (resolve_image_fails E _ _ _
                  "Failed to get latest BitSwan GitOps version: " w1 Hgi) as [v Hv].
      exists v, w1. apply (bind_Pan _ _ _ _ _ Hv). }
  rewrite (bind_Ok _ _ _ _ _ (resolve_image_ok E _ _ _ _ _ w1 Hgi)).
  destruct (image_ref E (editorImage o) _ _) as [ei|] eqn:Hei.
  2:{ destruct (resolve_image_fails E _ _ _
                  "Failed to get latest BitSwan Editor version: " w1 Hei) as [v Hv].
      exists v, w1. apply (bind_Pan _ _ _ _ _ Hv). }
  rewrite (bind_Ok _ _ _ _ _ (resolve_image_ok E _ _ _ _ _ w1 Hei)).
  unfold bind, or_return, or_panic, value_or_panic, os_MkdirAll, os_WriteFile, os_Chdir,
    call_api, run_command, ret, panic, return_, bind.
  destruct (mkdir_deployment E); [injection Hs as <-; contradiction|].
  destruct (AddCaddyRecords_result E); [eauto|].
  destruct (CreateDockerComposeFile E _ _ gi ei _ _); [eauto|].
  destruct (write_compose E); [eauto|].
  destruct (chdir_deployment E); [eauto|].
  simpl. destruct (compose_up E); [|eauto].
  destruct (negb (noIde o)); [|discriminate].
  destruct (GetEditorPassword E _ _); [eauto | discriminate].
Qed.

Lemma workspace_stages_after_provisioning E o args d w w1 :
  provisioned E o args w w1 ->
  workspace_stages E o args d w = DeploymentComposer E o args d w1.
Proof.
  unfold provisioned, workspace_stages, bind. intros H.
  destruct (WorkspaceProvisioner E o args w) as [[[]|e|v] wp]; try discriminate.
  destruct (SecretManager E args wp) as [[[]|e|v] ws]; try discriminate.
  injection H as <-. reflexivity.
Qed.

(** C2, as the code has it: when [DeploymentComposer] fails in one of the
    named ways after the workspace was provisioned, and the removal done by
    [cleanup] succeeds, the failure is a panic, [run]'s deferred handler
    recovers it, and the workspace's config directory does not exist when
    the call returns. *)
Theorem C2_rollback_removes_workspace_when_removal_succeeds :
  forall E o args (d : string) (w w1 : world) (s : deploy_step),
    provisioned E o args w w1 ->
    first_failure E o args = Some s ->
    named_failure s = true ->
    remove_all_result E (gitopsConfig E args) = None ->
    (exists v w2, DeploymentComposer E o args d w1 = (Pan v, w2))
    /\ fst (workspace_scope E o args d w) = Ret None
    /\ ~ present (gitopsConfig E args) (snd (workspace_scope E o args d w)).
Proof.
  intros E o args d w w1 s Hprov Hs Hnamed Hrm.
  assert (Hne : s <> MakeDeploymentDir) by (intros ->; discriminate).
  destruct (deploy_failure_panics E o args d s w1 Hs Hne) as (v & w2 & Hpan).
  split; [exists v, w2; exact Hpan|].
  unfold workspace_scope, defer_recover.
  rewrite (workspace_stages_after_provisioning E o args d w w1 Hprov), Hpan.
  split; [reflexivity|].
  simpl. unfold cleanup. rewrite Hrm. unfold present, set_fs. simpl.
  rewrite remove_all_gone. intros [x Hx]. discriminate.
Qed.

Lemma C2_rollback_witness :
  fst (workspace_scope (Sample.stack_fails None) Sample.plain_options ["demo"] ""
         Sample.fresh) = Ret None
  /\ ~ present (gitopsConfig (Sample.stack_fails None) ["demo"])
         (snd (workspace_scope (Sample.stack_fails None) Sample.plain_options ["demo"] ""
                 Sample.fresh)).
Proof.
  refine (proj2 (C2_rollback_removes_workspace_when_removal_succeeds
                   (Sample.stack_fails None) Sample.plain_options ["demo"] ""
                   Sample.fresh _ StartStack _ _ _ _)).
  - unfold provisioned. vm_compute. reflexivity.
  - vm_compute. reflexivity.
  - reflexivity.
  - reflexivity.
Defined.

(** C2 as stated fails: the stack does not start, the handler runs
    [cleanup], the removal itself fails and is only reported (l.67-69), and
    the workspace's config directory is still there when the call
    returns. *)
Lemma C2_rollback_counterexample : ~ rollback_complete.
Proof.
  intros H.
  refine (H (Sample.stack_fails (Some "permission denied")) Sample.plain_options
            ["demo"] "" Sample.fresh _ StartStack _ _ _ _).
  - unfold provisioned. vm_compute. reflexivity.
  - vm_compute. reflexivity.
  - reflexivity.
  - vm_compute. eexists. reflexivity.
Qed.

End RollbackCompleteness.

Section ProxySingleton.
Import Host Go Init Stages.




(** C5, at the failing input: no proxy is running, every step up to the
    start of the proxy's stack succeeds, and the start fails.  [run] returns
    the error of l.270; no handler cleans up, and the proxy config directory
    stays behind with both files in it. *)
Theorem C5_proxy_start_failure_is_not_rolled_back :
  let r := run Sample.proxy_start_fails Sample.plain_options ["demo"] Sample.fresh in
  fst r = Ret (Some ("Failed to start Caddy:" +:+ String "010" "Error: exit status 1"
                     +:+ String "010" "Output:" +:+ String "010" ""))
  /\ fs (snd r) !! "/home/u/.config/bitswan/caddy" = Some Dir
  /\ fs (snd r) !! "/home/u/.config/bitswan/caddy/Caddyfile" = Some (File caddyfile)
  /\ fs (snd r) !! "/home/u/.config/bitswan/caddy/docker-compose.yml"
     = Some (File "caddy for demo.example.com")
  /\ In caddy_up_command (execs (snd r)).
Proof.
  vm_compute. repeat split; auto.
Qed.

End ProxySingleton.

Section StepFacts.
Import Host Go Init Stages More.

Lemma bind_Ok_split {A B} (c : M A) (k : A -> M B) (w w' : world) (b : B) :
  bind c k w = (Ok b, w') ->
  exists a w1, c w = (Ok a, w1) /\ k a w1 = (Ok b, w').
Proof.
  unfold bind. destruct (c w) as [[a|e|v] w1]; try discriminate. eauto.
Qed.

Lemma stat_Ok (p : string) (w w' : world) (b : bool) :
  os_Stat_IsNotExist p w = (Ok b, w') -> b = negb (exists_path p w) /\ w' = w.
Proof. unfold os_Stat_IsNotExist. intros H. injection H as <- <-. auto. Qed.

Lemma or_return_Ok (msg : string) (c : M error) (w w' : world) (u : unit) :
  or_return msg c w = (Ok u, w') -> c w = (Ok None, w').
Proof.
  unfold or_return, bind, ret, return_.
  destruct (c w) as [[[e|]|e|v] w1]; try discriminate.
  intros H. injection H as _ <-. reflexivity.
Qed.

Lemma or_panic_Ok (msg : string) (c : M error) (w w' : world) (u : unit) :
  or_panic msg c w = (Ok u, w') -> c w = (Ok None, w').
Proof.
  unfold or_panic, bind, ret, panic.
  destruct (c w) as [[[e|]|e|v] w1]; try discriminate.
  intros H. injection H as _ <-. reflexivity.
Qed.

Lemma MkdirAll_Ok (out : error) (p : string) (w w' : world) :
  os_MkdirAll out p w = (Ok None, w') -> out = None /\ w' = set_fs (mkdir_all p) w.
Proof.
  unfold os_MkdirAll. destruct out; intros H; [discriminate|].
  injection H as <-. auto.
Qed.

Lemma Mkdir_step (out : error) (p : string) (w w' : world) (e : error) :
  os_Mkdir out p w = (Ok e, w') ->
  e = out /\ w' = match out with None => set_fs (mkdir p) w | Some _ => w end.
Proof.
  unfold os_Mkdir. destruct out; intros H; injection H as <- <-; auto.
Qed.

Lemma WriteFile_Ok (out : error) (p d : string) (w w' : world) :
  os_WriteFile out p d w = (Ok None, w') -> out = None /\ w' = set_fs (write_file p d) w.
Proof.
  unfold os_WriteFile. destruct out; intros H; [discriminate|].
  injection H as <-. auto.
Qed.

Lemma Chdir_Ok (out : error) (p : string) (w w' : world) :
  os_Chdir out p w = (Ok None, w') ->
  out = None /\ w' = World (fs w) p (execs w) (api w) (worktree_branch w).
Proof.
  unfold os_Chdir. destruct out; intros H; [discriminate|].
  injection H as <-. auto.
Qed.

Lemma call_api_Ok (c : api_call) (out : error) (w w' : world) :
  call_api c out w = (Ok None, w') ->
  out = None /\ w' = World (fs w) (cwd w) (execs w) (c :: api w) (worktree_branch w).
Proof. unfold call_api. intros H. injection H as -> <-. auto. Qed.

Lemma run_command_Ok (out : Ownership.run_result) (dir : option string)
    (argv : list string) (w w' : world) :
  run_command out dir argv w = (Ok None, w') ->
  out = Ownership.RunOk /\ w' = subprocess_effect dir argv (ran (Cmd dir argv) w).
Proof.
  unfold run_command. destruct out; intros H; [|discriminate].
  injection H as <-. auto.
Qed.

Lemma subprocess_effect_chown (x d : string) (w : world) :
  subprocess_effect None ["chown"; "-R"; x; d] w = w.
Proof. reflexivity. Qed.

Lemma subprocess_effect_worktree (dir : option string) (b p : string) (w : world) :
  subprocess_effect dir ["git"; "worktree"; "add"; "--orphan"; "-b"; b; p] w
  = World (mkdir_all p (fs w)) (cwd w) (execs w) (api w)
      (<[clean p := b]> (worktree_branch w)).
Proof. reflexivity. Qed.

Lemma subprocess_effect_clone (r t : string) (w : world) :
  subprocess_effect None ["git"; "clone"; r; t] w
  = set_fs (fun m => mkdir (t +:+ "/.git") (mkdir_all t m)) w.
Proof. reflexivity. Qed.

Lemma subprocess_effect_init (d : string) (w : world) :
  subprocess_effect (Some d) ["git"; "init"] w = set_fs (mkdir (d +:+ "/.git")) w.
Proof. reflexivity. Qed.

Lemma changeOwnership_step (chown : Ownership.run_result) (stat : Ownership.stat_result)
    (dir : string) (uid gid : nat) (w : world) :
  changeOwnership chown stat dir uid gid w
  = (Ok (Ownership.changeOwnership chown stat uid gid),
     ran (Cmd None ["chown"; "-R"; pretty uid +:+ ":" +:+ pretty gid; dir]) w).
Proof.
  unfold changeOwnership, bind, run_command, ret.
  destruct chown; rewrite ?subprocess_effect_chown; reflexivity.
Qed.

End StepFacts.

Section WorktreeNaming.
Import Host Go Init Stages.

Lemma WorkspaceProvisioner_worktree E o args w w' :
  WorkspaceProvisioner E o args w = (Ok tt, w') ->
  worktree_branch w' !! clean (gitopsWorktree E args) = Some (gitopsName args)
  /\ In (worktree_add_command E args) (execs w')
  /\ present (gitopsWorktree E args) w'.
Proof.
  intros H. unfold WorkspaceProvisioner in H.
  apply bind_Ok_split in H as (missing & w0 & Hst & H).
  apply stat_Ok in Hst as [-> ->].
  destruct (negb (negb (exists_path (gitopsConfig E args) w))); [discriminate H|].
  apply bind_Ok_split in H as ([] & wa & _ & H).
  apply bind_Ok_split in H as ([] & wb & _ & H).
  apply bind_Ok_split in H as (e & wc & Hch & H).
  rewrite changeOwnership_step in Hch. injection Hch as <- <-.
  destruct (Ownership.changeOwnership _ _ _ _); [discriminate H|].
  apply bind_Ok_split in H as (e & wd & Hwt & H).
  destruct e; [discriminate H|].
  apply run_command_Ok in Hwt as [_ ->].
  cbn [worktree_add_command cmd_dir cmd_argv] in H |- *.
  rewrite subprocess_effect_worktree in H.
  apply bind_Ok_split in H as ([] & we & Hsafe & H).
  apply or_panic_Ok, run_command_Ok in Hsafe as [_ ->].
  assert (Hdir : forall m, is_Some (mkdir_all (gitopsWorktree E args) m
                                     !! clean (gitopsWorktree E args))).
  { intros m. unfold mkdir_all, add_dir.
    destruct (foldr _ m _ !! clean (gitopsWorktree E args)) eqn:Hl.
    - rewrite Hl. eauto.
    - rewrite lookup_insert_eq. eauto. }
  destruct (negb (String.eqb (remoteRepo o) "")).
  - apply bind_Ok_split in H as ([] & wf & Hcommit & H).
    apply or_panic_Ok, run_command_Ok in Hcommit as [_ ->].
    apply or_panic_Ok, run_command_Ok in H as [_ ->].
    split; [apply lookup_insert_eq|]. split; [simpl; tauto | apply Hdir].
  - injection H as <-.
    split; [apply lookup_insert_eq|]. split; [simpl; tauto | apply Hdir].
Qed.

Lemma SecretManager_worktrees E args w :
  worktree_branch (snd (SecretManager E args w)) = worktree_branch w.
Proof.
  unfold SecretManager, changeOwnership, or_return, or_panic, bind, os_MkdirAll,
    run_command, ret, return_, panic.
  destruct (mkdir_secrets E); [reflexivity|].
  destruct (chown_secrets E); cbn [Ownership.changeOwnership]; [reflexivity|].
  destruct (stat_secrets E) as [|[st|]]; try reflexivity.
  destruct (Nat.eqb (Ownership.Uid st) 1000); reflexivity.
Qed.

Lemma resolve_image_world E given repo url msg w :
  snd (resolve_image E given repo url msg w) = w.
Proof.
  unfold resolve_image, bind, value_or_panic, ret, panic.
  destruct (String.eqb given ""); [|reflexivity].
  destruct (GetLatestDockerHubVersion E url); reflexivity.
Qed.

Lemma DeploymentComposer_worktrees E o args d w :
  worktree_branch (snd (DeploymentComposer E o args d w)) = worktree_branch w.
Proof.
  unfold DeploymentComposer. unfold bind at 1.
  pose proof (resolve_image_world E (gitopsImage o) "bitswan/gitops:"
                "https://hub.docker.com/v2/repositories/bitswan/gitops/tags/"
                "Failed to get latest BitSwan GitOps version: " w) as H1.
  destruct (resolve_image E (gitopsImage o) _ _ _ w) as [[gi|e|v] w1];
    simpl in H1; subst w1; try reflexivity.
  unfold bind at 1.
  pose proof (resolve_image_world E (editorImage o) "bitswan/bitswan-editor:"
                "https://hub.docker.com/v2/repositories/bitswan/bitswan-editor/tags/"
                "Failed to get latest BitSwan Editor version: " w) as H2.
  destruct (resolve_image E (editorImage o) _ _ _ w) as [[ei|e|v] w1];
    simpl in H2; subst w1; try reflexivity.
  unfold or_return, or_panic, value_or_panic, bind, os_MkdirAll, os_WriteFile, os_Chdir,
    call_api, run_command, ret, return_, panic.
  destruct (mkdir_deployment E); [reflexivity|].
  destruct (AddCaddyRecords_result E); [reflexivity|].
  destruct (CreateDockerComposeFile E _ _ gi ei _ _); [reflexivity|].
  destruct (write_compose E); [reflexivity|].
  destruct (chdir_deployment E); [reflexivity|].
  destruct (compose_up E); [|reflexivity].
  destruct (negb (noIde o)); [|reflexivity].
  destruct (GetEditorPassword E _ _); reflexivity.
Qed.

(** C6: once [WorkspaceProvisioner] has gone through for the workspace
    named W, the worktree was added by [git worktree add --orphan -b W
    <config>/W/gitops] run in the workspace checkout, the worktree
    directory exists, and the branch checked out in it is W; the stages
    that follow leave that branch as it is. *)
Theorem C6_worktree_branch_is_workspace_name :
  forall E o args (w w1 : world),
    WorkspaceProvisioner E o args w = (Ok tt, w1) ->
    worktree_add_command E args
      = Cmd (Some (gitopsWorkspace E args))
            ["git"; "worktree"; "add"; "--orphan"; "-b"; gitopsName args;
             gitopsConfig E args +:+ "/gitops"]
    /\ In (worktree_add_command E args) (execs w1)
    /\ present (gitopsWorktree E args) w1
    /\ worktree_branch w1 !! clean (gitopsWorktree E args) = Some (gitopsName args)
    /\ (forall d,
          worktree_branch
            (snd (bind (SecretManager E args)
                    (fun _ => DeploymentComposer E o args d) w1))
            !! clean (gitopsWorktree E args)
          = Some (gitopsName args)).
Proof.
  intros E o args w w1 H.
  destruct (WorkspaceProvisioner_worktree E o args w w1 H) as (Hb & Hin & Hp).
  repeat split; try assumption.
  intros d. unfold bind.
  pose proof (SecretManager_worktrees E args w1) as Hs.
  destruct (SecretManager E args w1) as [[[]|e|v] w2]; simpl in Hs |- *.
  - rewrite DeploymentComposer_worktrees, Hs. exact Hb.
  - rewrite Hs. exact Hb.
  - rewrite Hs. exact Hb.
Qed.

Lemma C6_worktree_witness :
  worktree_branch
    (snd (WorkspaceProvisioner Sample.all_ok Sample.plain_options ["demo"] Sample.fresh))
    !! "/home/u/.config/bitswan/demo/gitops" = Some "demo".
Proof.
  refine (proj1 (proj2 (proj2 (proj2
    (C6_worktree_branch_is_workspace_name Sample.all_ok Sample.plain_options ["demo"]
       Sample.fresh _ _))))).
  vm_compute. reflexivity.
Defined.

End WorktreeNaming.

Section ListLayout.
Import Host Go Init Stages.

(** C9, at the failing input: [init demo] goes through on a fresh host and
    leaves the workspace at <root>/demo, but [list] looks into
    <root>/workspaces: it fails because that directory is missing and
    prints nothing; and where that directory exists, it prints nothing
    either. *)
Theorem C9_list_does_not_see_init_workspace :
  let r := run Sample.all_ok Sample.plain_options ["demo"] Sample.fresh in
  let r' := run Sample.all_ok Sample.plain_options ["demo"] Sample.with_workspaces_dir in
  fst r = Ok tt
  /\ fs (snd r) !! "/home/u/.config/bitswan/demo" = Some Dir
  /\ List.bitswanConfig Sample.list_env = "/home/u/.config/bitswan/workspaces"
  /\ List.run Sample.list_env false (snd r)
     = ([], Some "workspaces directory not found: /home/u/.config/bitswan/workspaces")
  /\ fst r' = Ok tt
  /\ fs (snd r') !! "/home/u/.config/bitswan/demo" = Some Dir
  /\ List.run Sample.list_env false (snd r') = ([], None).
Proof.
  vm_compute. repeat split.
Qed.

End ListLayout.

(** *** The regular-expression matcher *)

Section RegexFacts.
Import Dockerhub RegexLang.

Lemma matches_empty_inv (s : string) : ~ matches REmpty s.
Proof. intros H. inversion H. Qed.

Lemma matches_eps_inv (s : string) : matches REps s -> s = "".
Proof. intros H. inversion H. reflexivity. Qed.

Lemma matches_class_inv (cl : list (ascii * ascii)) (s : string) :
  matches (RClass cl) s -> exists c, s = String c "" /\ in_class c cl = true.
Proof. intros H. inversion H; subst. eauto. Qed.

Lemma matches_cat_inv (a b : regex) (s : string) :
  matches (RCat a b) s ->
  exists s1 s2, s = s1 +:+ s2 /\ matches a s1 /\ matches b s2.
Proof. intros H. inversion H; subst. eauto. Qed.

Lemma matches_alt_inv (a b : regex) (s : string) :
  matches (RAlt a b) s -> matches a s \/ matches b s.
Proof. intros H. inversion H; subst; auto. Qed.

Lemma append_eq_nil (a b : string) : a +:+ b = "" -> a = "" /\ b = "".
Proof.
  destruct a; [rewrite append_nil_l; auto | rewrite append_cons; discriminate].
Qed.

(** How a concatenation can begin with the byte [c]. *)
Lemma append_eq_cons (a b : string) (c : ascii) (s : string) :
  a +:+ b = String c s ->
  (a = "" /\ b = String c s) \/ (exists a', a = String c a' /\ s = a' +:+ b).
Proof.
  destruct a as [|x a].
  - rewrite append_nil_l. auto.
  - rewrite append_cons. intros H. injection H as -> <-. right. eauto.
Qed.

Lemma nullable_matches (r : regex) : nullable r = true <-> matches r "".
Proof.
  induction r as [| |cl|a IHa b IHb|a IHa b IHb|a IHa]; simpl.
  - split; [discriminate | intros H; destruct (matches_empty_inv _ H)].
  - split; [intros _; constructor | reflexivity].
  - split; [discriminate|].
    intros H. apply matches_class_inv in H as (c & Hc & _). discriminate.
  - rewrite andb_true_iff, IHa, IHb. split.
    + intros [Ha Hb]. apply (MCat a b "" "" Ha Hb).
    + intros H. apply matches_cat_inv in H as (s1 & s2 & Heq & H1 & H2).
      symmetry in Heq. apply append_eq_nil in Heq as [-> ->]. auto.
  - rewrite orb_true_iff, IHa, IHb. split.
    + intros [H|H]; [apply MAltL | apply MAltR]; exact H.
    + apply matches_alt_inv.
  - split; [intros _; constructor | reflexivity].
Qed.

(** A non-empty match of a star starts with a non-empty match of its
    body. *)
Lemma star_cons (a : regex) (c : ascii) (s : string) :
  matches (RStar a) (String c s) ->
  exists s1 s2, s = s1 +:+ s2 /\ matches a (String c s1) /\ matches (RStar a) s2.
Proof.
  intros H. remember (RStar a) as r eqn:Hr. remember (String c s) as t eqn:Ht.
  revert Hr Ht. induction H as [| | | | | |a' s1 s2 H1 _ H2 IH2]; intros Hr Ht;
    try discriminate.
  injection Hr as ->.
  destruct (append_eq_cons _ _ _ _ Ht) as [[-> Hs2]|(s1' & -> & ->)].
  - apply IH2; [reflexivity | exact Hs2].
  - exists s1', s2. auto.
Qed.

Lemma deriv_matches (r : regex) :
  forall (c : ascii) (s : string), matches (deriv c r) s <-> matches r (String c s).
Proof.
  induction r as [| |cl|a IHa b IHb|a IHa b IHb|a IHa]; intros c s; simpl.
  - split; intros H; destruct (matches_empty_inv _ H).
  - split; intros H; [destruct (matches_empty_inv _ H)|].
    apply matches_eps_inv in H. discriminate.
  - destruct (in_class c cl) eqn:Hc.
    + split; intros H.
      * apply matches_eps_inv in H as ->. constructor. exact Hc.
      * apply matches_class_inv in H as (x & Hx & _). injection Hx as <- ->. constructor.
    + split; intros H; [destruct (matches_empty_inv _ H)|].
      apply matches_class_inv in H as (x & Hx & Hin). injection Hx as <- _. congruence.
  - assert (Hcat : matches (RCat (deriv c a) b) s ->
                   matches (RCat a b) (String c s)).
    { intros H. apply matches_cat_inv in H as (s1 & s2 & -> & H1 & H2).
      apply IHa in H1. apply (MCat a b (String c s1) s2 H1 H2). }
    assert (Hinv : matches (RCat a b) (String c s) ->
                   matches (RCat (deriv c a) b) s
                   \/ (matches a "" /\ matches b (String c s))).
    { intros H. apply matches_cat_inv in H as (s1 & s2 & Heq & H1 & H2).
      symmetry in Heq.
      destruct (append_eq_cons _ _ _ _ Heq) as [[-> ->]|(s1' & -> & ->)].
      - right. auto.
      - left. apply MCat; [apply IHa; exact H1 | exact H2]. }
    destruct (nullable a) eqn:Hn.
    + split.
      * intros H. apply matches_alt_inv in H as [H|H]; [apply Hcat, H|].
        apply (MCat a b "" (String c s)); [apply nullable_matches, Hn | apply IHb, H].
      * intros H. destruct (Hinv H) as [H1|[_ H2]];
          [apply MAltL, H1 | apply MAltR, IHb, H2].
    + split; [exact Hcat|].
      intros H. destruct (Hinv H) as [H1|[H1 _]]; [exact H1|].
      apply nullable_matches in H1. congruence.
  - split; intros H; apply matches_alt_inv in H as [H|H];
      first [apply MAltL, IHa, H | apply MAltR, IHb, H].
  - split.
    + intros H. apply matches_cat_inv in H as (s1 & s2 & -> & H1 & H2).
      apply IHa in H1. apply (MStarApp a (String c s1) s2 H1 H2).
    + intros H. destruct (star_cons a c s H) as (s1 & s2 & -> & H1 & H2).
      apply MCat; [apply IHa; exact H1 | exact H2].
Qed.

(** The matcher decides the language. *)
Lemma full_match_matches (s : string) :
  forall r : regex, full_match r s = true <-> matches r s.
Proof.
  induction s as [|c s IH]; intros r; simpl.
  - apply nullable_matches.
  - rewrite IH. apply deriv_matches.
Qed.

Lemma matches_lit (c : ascii) (s : string) : matches (lit c) s <-> s = String c "".
Proof.
  unfold lit. split.
  - intros H. apply matches_class_inv in H as (x & -> & Hx).
    unfold in_class, in_range in Hx. simpl in Hx. rewrite orb_false_r in Hx.
    apply andb_true_iff in Hx as [Hl Hu].
    apply Nat.leb_le in Hl, Hu.
    assert (Hn : nat_of_ascii x = nat_of_ascii c) by lia.
    rewrite <- (ascii_nat_embedding x), Hn, ascii_nat_embedding. reflexivity.
  - intros ->. constructor. unfold in_class, in_range. simpl.
    rewrite Nat.leb_refl. reflexivity.
Qed.

Lemma matches_lits (l s : string) : matches (lits l) s <-> s = l.
Proof.
  revert s. induction l as [|c l IH]; intros s; simpl.
  - split; [apply matches_eps_inv | intros ->; constructor].
  - split.
    + intros H. apply matches_cat_inv in H as (s1 & s2 & -> & H1 & H2).
      apply matches_lit in H1 as ->. apply IH in H2 as ->. reflexivity.
    + intros ->. apply (MCat _ _ (String c "") l);
        [apply matches_lit | apply IH]; reflexivity.
Qed.

Lemma matches_star_class (cl : list (ascii * ascii)) (s : string) :
  matches (RStar (RClass cl)) s <-> all_in cl s = true.
Proof.
  split.
  - intros H. remember (RStar (RClass cl)) as r eqn:Hr. revert Hr.
    induction H as [| | | | | |a s1 s2 H1 _ H2 IH2]; intros Hr; try discriminate.
    + reflexivity.
    + injection Hr as ->. apply matches_class_inv in H1 as (c & -> & Hc).
      rewrite append_cons, append_nil_l. simpl. rewrite Hc. apply IH2. reflexivity.
  - induction s as [|c s IH]; simpl; intros H; [constructor|].
    apply andb_true_iff in H as [Hc Hs].
    apply (MStarApp _ (String c "") s); [constructor; exact Hc | apply IH, Hs].
Qed.

Lemma matches_plus_class (cl : list (ascii * ascii)) (s : string) :
  matches (plus (RClass cl)) s <-> s <> "" /\ all_in cl s = true.
Proof.
  unfold plus. split.
  - intros H. apply matches_cat_inv in H as (s1 & s2 & -> & H1 & H2).
    apply matches_class_inv in H1 as (c & -> & Hc). apply matches_star_class in H2.
    rewrite append_cons, append_nil_l. split; [discriminate|].
    simpl. rewrite Hc. exact H2.
  - intros [Hne H]. destruct s as [|c s]; [contradiction|].
    simpl in H. apply andb_true_iff in H as [Hc Hs].
    apply (MCat _ _ (String c "") s); [constructor; exact Hc | apply matches_star_class, Hs].
Qed.

(** X1: [regexp.MatchString] with the pattern of l.29 accepts a tag exactly
    when the tag is four digits, a dash, one or more digits, ["-git-"] and
    one or more hexadecimal digits, with nothing before or after. *)
Theorem X1_pattern_accepts_dated_builds (tag : string) :
  MatchString tag = true <-> dated_build tag.
Proof.
  unfold MatchString. rewrite full_match_matches. unfold pattern, dated_build.
  split.
  - intros H.
    apply matches_cat_inv in H as (t1 & r1 & -> & H1 & H).
    apply matches_cat_inv in H as (t2 & r2 & -> & H2 & H).
    apply matches_cat_inv in H as (t3 & r3 & -> & H3 & H).
    apply matches_cat_inv in H as (t4 & r4 & -> & H4 & H).
    apply matches_cat_inv in H as (dash & r5 & -> & Hd & H).
    apply matches_cat_inv in H as (month & r6 & -> & Hm & H).
    apply matches_cat_inv in H as (git & hash & -> & Hg & Hh).
    apply matches_class_inv in H1 as (d1 & -> & Hd1).
    apply matches_class_inv in H2 as (d2 & -> & Hd2).
    apply matches_class_inv in H3 as (d3 & -> & Hd3).
    apply matches_class_inv in H4 as (d4 & -> & Hd4).
    apply matches_lit in Hd as ->. apply (matches_lits "-git-") in Hg as ->.
    apply matches_plus_class in Hm as [Hm1 Hm2].
    apply matches_plus_class in Hh as [Hh1 Hh2].
    exists d1, d2, d3, d4, month, hash. repeat split; try assumption.
    cbn [all_in]. unfold digits. rewrite Hd1, Hd2, Hd3, Hd4. reflexivity.
  - intros (d1 & d2 & d3 & d4 & month & hash & -> & Hd & Hm1 & Hm2 & Hh1 & Hh2).
    cbn [all_in] in Hd. unfold digits in Hd.
    apply andb_true_iff in Hd as [Hd1 Hd]. apply andb_true_iff in Hd as [Hd2 Hd].
    apply andb_true_iff in Hd as [Hd3 Hd]. apply andb_true_iff in Hd as [Hd4 _].
    apply (MCat _ _ (String d1 "")); [constructor; exact Hd1|].
    apply (MCat _ _ (String d2 "")); [constructor; exact Hd2|].
    apply (MCat _ _ (String d3 "")); [constructor; exact Hd3|].
    apply (MCat _ _ (String d4 "")); [constructor; exact Hd4|].
    apply (MCat _ _ "-"); [apply matches_lit; reflexivity|].
    apply MCat; [apply matches_plus_class; auto|].
    apply (MCat _ _ "-git-"); [apply (matches_lits "-git-"); reflexivity|].
    apply matches_plus_class; auto.
Qed.


Lemma X1_pattern_witness : dated_build "2024-11-git-abc123".
Proof.
  apply (proj1 (X1_pattern_accepts_dated_builds "2024-11-git-abc123")).
  vm_compute. reflexivity.
Defined.


End RegexFacts.

(** *** Ownership, the network check and the first stage *)

Section NetworkStage.
Import Host Go Init Stages More.

(** X3: [changeOwnership] returns nil exactly when chown succeeded, or the
    stat succeeded and either the owner uid is the wanted one or [Sys()] is
    not a [*syscall.Stat_t]; the group is never looked at, so a directory of
    the wanted user in any group passes the fallback. *)
Theorem X3_changeOwnership_nil_cases :
  forall (chown : Ownership.run_result) (stat : Ownership.stat_result) (uid gid : nat),
    (Ownership.changeOwnership chown stat uid gid = None
     <-> chown = Ownership.RunOk
         \/ stat = Ownership.StatInfo Ownership.SysOther
         \/ exists g, stat = Ownership.StatInfo (Ownership.SysStat (Ownership.mkStat uid g)))
    /\ (forall gid', Ownership.changeOwnership chown stat uid gid'
                     = Ownership.changeOwnership chown stat uid gid).
Proof.
  intros chown stat uid gid. split; [|reflexivity].
  destruct chown as [|err]; simpl.
  - split; [auto | reflexivity].
  - destruct stat as [e|[[u g]|]]; simpl.
    + split; [discriminate|]. intros [H|[H|[g H]]]; discriminate.
    + destruct (Nat.eqb_spec u uid) as [->|Hne].
      * split; [intros _; right; right; exists g; reflexivity | reflexivity].
      * split; [discriminate|].
        intros [H|[H|[g' H]]]; try discriminate. injection H as Hu _. contradiction.
    + split; [auto | reflexivity].
Qed.

Lemma scan_networks_cases (lines : list ls_line) (name : string) :
  (exists pre post, lines = (pre ++ Network name :: post)%list
                    /\ Forall (other_network name) pre
                    /\ scan_networks lines name = (true, None))
  \/ (exists pre e post, lines = (pre ++ BadJSON e :: post)%list
                         /\ Forall (other_network name) pre
                         /\ scan_networks lines name
                            = (false, Some ("error parsing JSON: " +:+ e)))
  \/ (Forall (other_network name) lines /\ scan_networks lines name = (false, None)).
Proof.
  induction lines as [|l rest IH]; simpl.
  - right. right. split; [constructor | reflexivity].
  - destruct l as [e|n].
    + right. left. exists [], e, rest. repeat split. constructor.
    + destruct (String.eqb_spec n name) as [->|Hne].
      * left. exists [], rest. repeat split. constructor.
      * assert (Ho : other_network name (Network n)) by (exists n; auto).
        destruct IH as [(pre & post & -> & Hpre & Hr)
                       |[(pre & e & post & -> & Hpre & Hr)|[Hall Hr]]].
        -- left. exists (Network n :: pre), post. repeat split; [constructor|]; assumption.
        -- right. left. exists (Network n :: pre), e, post.
           repeat split; [constructor|]; assumption.
        -- right. right. split; [constructor|]; assumption.
Qed.

(** X4: the loop of [checkNetworkExists] reports the network as present
    exactly when a line naming it comes before any line that does not
    parse; a malformed line after that one goes unnoticed, and a malformed
    line before it is the error returned. *)
Theorem X4_network_listing_scan :
  forall (lines : list ls_line) (name : string),
    (scan_networks lines name = (true, None)
     <-> exists pre post, lines = (pre ++ Network name :: post)%list
                          /\ Forall (other_network name) pre)
    /\ (snd (scan_networks lines name) <> None
        <-> exists pre e post, lines = (pre ++ BadJSON e :: post)%list
                               /\ Forall (other_network name) pre)
    /\ (scan_networks lines name = (false, None)
        <-> Forall (other_network name) lines).
Proof.
  intros lines name.
  assert (Hpre : forall pre tail, Forall (other_network name) pre ->
            scan_networks (pre ++ tail) name = scan_networks tail name).
  { induction pre as [|l pre IH]; intros tail H; [reflexivity|].
    inversion H as [|? ? (n & -> & Hn) Hrest]; subst. simpl.
    destruct (String.eqb_spec n name); [contradiction | apply IH, Hrest]. }
  assert (Hall : Forall (other_network name) lines ->
            scan_networks lines name = (false, None)).
  { intros H. rewrite <- (app_nil_r lines). rewrite Hpre by exact H. reflexivity. }
  destruct (scan_networks_cases lines name)
    as [(pre & post & Hl & Hp & Hr)|[(pre & e & post & Hl & Hp & Hr)|[Hp Hr]]].
  - split; [|split].
    + split; [intros _; eauto|]. intros _. exact Hr.
    + rewrite Hr. split; [intros H; contradiction|].
      intros (pre' & e & post' & Hl' & Hp'). rewrite Hl', (Hpre _ _ Hp') in Hr.
      simpl in Hr. discriminate.
    + rewrite Hr. split; [discriminate|]. intros H. apply Hall in H. congruence.
  - split; [|split].
    + rewrite Hr. split; [discriminate|].
      intros (pre' & post' & Hl' & Hp'). rewrite Hl', (Hpre _ _ Hp') in Hr.
      simpl in Hr. rewrite String.eqb_refl in Hr. discriminate.
    + rewrite Hr. split; [intros _; eauto | discriminate].
    + rewrite Hr. split; [discriminate|]. intros H. apply Hall in H. congruence.
  - split; [|split].
    + rewrite Hr. split; [discriminate|].
      intros (pre' & post' & Hl' & Hp'). rewrite Hl', (Hpre _ _ Hp') in Hr.
      simpl in Hr. rewrite String.eqb_refl in Hr. discriminate.
    + rewrite Hr. split; [intros H; contradiction|].
      intros (pre' & e & post' & Hl' & Hp'). rewrite Hl', (Hpre _ _ Hp') in Hr.
      simpl in Hr. discriminate.
    + split; [intros _; exact Hp | intros _; exact Hr].
Qed.

Lemma mkdir_all_present (p : string) (m : gmap string node) :
  is_Some (mkdir_all p m !! clean p).
Proof.
  unfold mkdir_all, add_dir.
  destruct (foldr _ m _ !! clean p) eqn:Hl.
  - rewrite Hl. eauto.
  - rewrite lookup_insert_eq. eauto.
Qed.

Ltac unfold_network :=
  unfold NetworkProvisioner, bind, os_Stat_IsNotExist, or_return, os_MkdirAll,
    checkNetworkExists, run_command, ret, return_, panic; unfold bind.

(** X5: a failed network check (the listing cannot be run, or a line
    before the wanted one does not parse) makes [run] panic at l.176, before
    any handler is deferred: the panic leaves [run], nothing is cleaned up,
    and no later stage has run. *)
Theorem X5_network_check_panic_escapes :
  forall E o args (w : world),
    config_root_ok E w ->
    ~ network_check_ok E ->
    exists v,
      outcome_of (fst (run E o args w)) = Panicked v
      /\ keeps_paths w (snd (run E o args w))
      /\ execs (snd (run E o args w)) = network_ls_command :: execs w
      /\ api (snd (run E o args w)) = api w.
Proof.
  intros E o args w Hroot Hbad. unfold run.
  assert (Hnp : exists v w', NetworkProvisioner E w = (Pan v, w')
                  /\ keeps_paths w w'
                  /\ execs w' = network_ls_command :: execs w
                  /\ api w' = api w).
  { unfold_network. unfold network_check_ok in Hbad.
    assert (Hk : keeps_paths w (set_fs (mkdir_all (bitswanConfig E)) w)).
    { intros p Hp. apply mkdir_all_keeps, Hp. }
    destruct Hroot as [Hex|Hmk].
    - rewrite Hex. simpl.
      destruct (network_ls E) as [e|lines]; simpl.
      + eexists _, _. repeat split. (intros q Hq; exact Hq).
      + destruct (scan_networks lines "bitswan_network") as [b [e|]] eqn:Hs; simpl.
        * eexists _, _. repeat split. (intros q Hq; exact Hq).
        * exfalso. apply Hbad. exists lines. rewrite Hs. auto.
    - destruct (exists_path (bitswanConfig E) w); simpl; rewrite ?Hmk; simpl.
      + destruct (network_ls E) as [e|lines]; simpl.
        * eexists _, _. repeat split. (intros q Hq; exact Hq).
        * destruct (scan_networks lines "bitswan_network") as [b [e|]] eqn:Hs; simpl.
          -- eexists _, _. repeat split. (intros q Hq; exact Hq).
          -- exfalso. apply Hbad. exists lines. rewrite Hs. auto.
      + destruct (network_ls E) as [e|lines]; simpl.
        * eexists _, _. repeat split. exact Hk.
        * destruct (scan_networks lines "bitswan_network") as [b [e|]] eqn:Hs; simpl.
          -- eexists _, _. repeat split. exact Hk.
          -- exfalso. apply Hbad. exists lines. rewrite Hs. auto. }
  destruct Hnp as (v & w' & Hnp & Hk & Hx & Ha). exists v.
  rewrite (bind_Pan _ _ _ _ _ Hnp). simpl. auto.
Qed.

(** X6: the shared network is ensured idempotently: when the listing shows
    it, no create command is run; when it does not, the create command is
    run once, and the stage goes on whether that command succeeds or
    fails. *)
Theorem X6_network_ensure :
  forall E (w : world) (lines : list ls_line),
    config_root_ok E w ->
    network_ls E = inr lines ->
    snd (scan_networks lines "bitswan_network") = None ->
    fst (NetworkProvisioner E w) = Ok tt
    /\ execs (snd (NetworkProvisioner E w))
       = ((if fst (scan_networks lines "bitswan_network")
           then [network_ls_command]
           else [network_create_command; network_ls_command]) ++ execs w)%list.
Proof.
  intros E w lines Hroot Hls Hscan. unfold_network. rewrite Hls.
  destruct (scan_networks lines "bitswan_network") as [b e]. simpl in Hscan. subst e.
  destruct Hroot as [Hex|Hmk].
  - rewrite Hex. simpl. destruct b; simpl; [auto|].
    destruct (network_create E); simpl; auto.
  - destruct (exists_path (bitswanConfig E) w); simpl; rewrite ?Hmk; simpl;
      (destruct b; simpl; [auto|]); destruct (network_create E); simpl; auto.
Qed.


Lemma X5_network_check_panic_witness :
  exists v,
    outcome_of (fst (run Sample2.no_docker Sample.plain_options ["demo"] Sample.fresh))
      = Panicked v
    /\ keeps_paths Sample.fresh
         (snd (run Sample2.no_docker Sample.plain_options ["demo"] Sample.fresh))
    /\ execs (snd (run Sample2.no_docker Sample.plain_options ["demo"] Sample.fresh))
       = network_ls_command :: execs Sample.fresh
    /\ api (snd (run Sample2.no_docker Sample.plain_options ["demo"] Sample.fresh))
       = api Sample.fresh.
Proof.
  apply (X5_network_check_panic_escapes Sample2.no_docker Sample.plain_options ["demo"]
           Sample.fresh).
  - right. reflexivity.
  - intros (lines & H & _). discriminate H.
Defined.

Lemma X6_network_ensure_witness :
  fst (NetworkProvisioner Sample2.network_there Sample.fresh) = Ok tt
  /\ execs (snd (NetworkProvisioner Sample2.network_there Sample.fresh))
     = [network_ls_command].
Proof.
  apply (X6_network_ensure Sample2.network_there Sample.fresh
           [Network "bridge"; Network "bitswan_network"; BadJSON "EOF"]).
  - right. reflexivity.
  - reflexivity.
  - reflexivity.
Defined.


End NetworkStage.

(** *** The proxy bootstrap *)

Section ProxyBootstrap.
Import Host Go Init Stages More.

Lemma add_dir_lookup (p q : string) (m : gmap string node) (x : node) :
  m !! q = Some x -> add_dir p m !! q = Some x.
Proof.
  intros Hq. unfold add_dir. destruct (m !! p) eqn:Hp; [exact Hq|].
  rewrite lookup_insert_ne; [exact Hq|]. intros ->. congruence.
Qed.

Lemma mkdir_all_lookup (p q : string) (m : gmap string node) (x : node) :
  m !! q = Some x -> mkdir_all p m !! q = Some x.
Proof.
  intros Hq. unfold mkdir_all. apply add_dir_lookup.
  induction (ancestors (clean p)) as [|a l IH]; simpl; [exact Hq|].
  apply add_dir_lookup, IH.
Qed.

Lemma clean_Caddyfile E :
  clean (caddyConfig E +:+ "/Caddyfile") = caddyConfig E +:+ "/Caddyfile".
Proof. apply clean_app_keep. discriminate. Qed.

Lemma clean_proxy_compose E :
  clean (caddyConfig E +:+ "/docker-compose.yml") = caddyConfig E +:+ "/docker-compose.yml".
Proof. apply clean_app_keep. discriminate. Qed.

(** X8: when no proxy answers and the bootstrap goes through, the proxy
    directory holds the Caddyfile with the fixed global options and the
    compose file as rendered for the domain, the certificate store exists,
    the working directory is the proxy directory, and exactly one
    subprocess was run, the start of the proxy's stack, followed by one
    admin-API call, the initialisation. *)
Theorem X8_bootstrap_postcondition :
  forall E o (w w' : world),
    admin_probe E <> None ->
    ProxyBootstrapper E o w = (Ok tt, w') ->
    exists yaml,
      CreateCaddyDockerComposeFile E (caddyConfig E) (domain o) = inr yaml
      /\ fs w' !! (caddyConfig E +:+ "/Caddyfile") = Some (File caddyfile)
      /\ fs w' !! (caddyConfig E +:+ "/docker-compose.yml") = Some (File yaml)
      /\ present (caddyConfig E) w'
      /\ present (caddyCertsDir E) w'
      /\ cwd w' = caddyConfig E
      /\ execs w' = caddy_up_command :: execs w
      /\ api w' = InitCaddy :: api w.
Proof.
  intros E o w w' Hdown.
  unfold ProxyBootstrapper, caddy_running.
  destruct (admin_probe E); [|contradiction].
  unfold bind, or_return, or_panic, value_or_panic, os_MkdirAll, os_WriteFile, os_Chdir,
    os_Stat_IsNotExist, run_command, call_api, ret, return_, panic; unfold bind.
  destruct (mkdir_caddy E); [discriminate|].
  destruct (write_caddyfile E); [discriminate|].
  destruct (CreateCaddyDockerComposeFile E (caddyConfig E) (domain o)) as [e|yaml];
    [discriminate|].
  destruct (write_caddy_compose E); [discriminate|].
  destruct (chdir_caddy E); [discriminate|].
  set (m2 := write_file (caddyConfig E +:+ "/docker-compose.yml") yaml
               (write_file (caddyConfig E +:+ "/Caddyfile") caddyfile
                  (mkdir_all (caddyConfig E) (fs w)))).
  assert (Hcf : m2 !! (caddyConfig E +:+ "/Caddyfile") = Some (File caddyfile)).
  { unfold m2, write_file. rewrite clean_Caddyfile, clean_proxy_compose.
    rewrite lookup_insert_ne, lookup_insert_eq; [reflexivity|].
    intros H. apply append_inv_head in H. discriminate. }
  assert (Hcp : m2 !! (caddyConfig E +:+ "/docker-compose.yml") = Some (File yaml)).
  { unfold m2, write_file. rewrite clean_proxy_compose. apply lookup_insert_eq. }
  assert (Hdir : is_Some (m2 !! clean (caddyConfig E))).
  { unfold m2. apply write_file_keeps, write_file_keeps, mkdir_all_present. }
  cbn [negb set_fs fs cwd execs api worktree_branch].
  fold m2.
  destruct (exists_path (caddyCertsDir E) _) eqn:Hcerts; cbn [negb].
  - apply bool_decide_eq_true in Hcerts. cbn [fs] in Hcerts.
    destruct (caddy_up E); [|discriminate]. cbn.
    destruct (InitCaddy_result E); [discriminate|].
    intros H. injection H as <-. exists yaml. cbn.
    repeat split; assumption.
  - destruct (mkdir_caddy_certs E); [discriminate|].
    destruct (caddy_up E); [|discriminate]. cbn.
    destruct (InitCaddy_result E); [discriminate|].
    intros H. injection H as <-. exists yaml. cbn.
    repeat split.
    + apply mkdir_all_lookup, Hcf.
    + apply mkdir_all_lookup, Hcp.
    + apply mkdir_all_keeps, Hdir.
    + apply mkdir_all_present.
Qed.

Lemma X8_bootstrap_witness :
  exists yaml,
    CreateCaddyDockerComposeFile Sample.all_ok (caddyConfig Sample.all_ok)
      (domain Sample.plain_options) = inr yaml
    /\ fs (snd (ProxyBootstrapper Sample.all_ok Sample.plain_options Sample.fresh))
         !! (caddyConfig Sample.all_ok +:+ "/Caddyfile") = Some (File caddyfile)
    /\ fs (snd (ProxyBootstrapper Sample.all_ok Sample.plain_options Sample.fresh))
         !! (caddyConfig Sample.all_ok +:+ "/docker-compose.yml") = Some (File yaml)
    /\ present (caddyConfig Sample.all_ok)
         (snd (ProxyBootstrapper Sample.all_ok Sample.plain_options Sample.fresh))
    /\ present (caddyCertsDir Sample.all_ok)
         (snd (ProxyBootstrapper Sample.all_ok Sample.plain_options Sample.fresh))
    /\ cwd (snd (ProxyBootstrapper Sample.all_ok Sample.plain_options Sample.fresh))
       = caddyConfig Sample.all_ok
    /\ execs (snd (ProxyBootstrapper Sample.all_ok Sample.plain_options Sample.fresh))
       = caddy_up_command :: execs Sample.fresh
    /\ api (snd (ProxyBootstrapper Sample.all_ok Sample.plain_options Sample.fresh))
       = InitCaddy :: api Sample.fresh.
Proof.
  apply (X8_bootstrap_postcondition Sample.all_ok Sample.plain_options Sample.fresh).
  - discriminate.
  - vm_compute. reflexivity.
Defined.

Ltac unfold_proxy :=
  unfold ProxyBootstrapper, caddy_running;
  unfold bind, or_return, or_panic, value_or_panic, os_MkdirAll, os_WriteFile, os_Chdir,
    os_Stat_IsNotExist, run_command, call_api, ret, return_, panic; unfold bind.

(** How the bootstrap can end, with the step that decided it. *)
Lemma ProxyBootstrapper_outcomes E o (w : world) :
  match ProxyBootstrapper E o w with
  | (Ok _, _) => True
  | (Pan _, w1) =>
      (write_caddyfile E <> None
       \/ (exists e, CreateCaddyDockerComposeFile E (caddyConfig E) (domain o) = inl e)
       \/ write_caddy_compose E <> None
       \/ chdir_caddy E <> None
       \/ (InitCaddy_result E <> None /\ execs w1 = caddy_up_command :: execs w))
      /\ mkdir_caddy E = None
  | (Ret e, w1) =>
      e <> None
      /\ ((mkdir_caddy E <> None /\ w1 = w)
          \/ (mkdir_caddy E = None
              /\ (mkdir_caddy_certs E <> None \/ caddy_up E <> Ownership.RunOk)
              /\ is_Some (fs w1 !! (caddyConfig E +:+ "/Caddyfile"))))
  end.
Proof.
  unfold_proxy.
  destruct (admin_probe E); [|exact I].
  destruct (mkdir_caddy E); [split; [discriminate | left; split; [discriminate | reflexivity]]|].
  destruct (write_caddyfile E); [split; [left; discriminate | reflexivity]|].
  destruct (CreateCaddyDockerComposeFile E (caddyConfig E) (domain o)) as [e|yaml];
    [split; [right; left; eauto | reflexivity]|].
  destruct (write_caddy_compose E); [split; [right; right; left; discriminate | reflexivity]|].
  destruct (chdir_caddy E);
    [split; [right; right; right; left; discriminate | reflexivity]|].
  cbn [negb set_fs fs cwd execs api worktree_branch].
  set (m2 := write_file (caddyConfig E +:+ "/docker-compose.yml") yaml
               (write_file (caddyConfig E +:+ "/Caddyfile") caddyfile
                  (mkdir_all (caddyConfig E) (fs w)))).
  assert (Hcf : is_Some (m2 !! (caddyConfig E +:+ "/Caddyfile"))).
  { unfold m2. apply write_file_keeps. unfold write_file.
    rewrite clean_Caddyfile, lookup_insert_eq. eauto. }
  destruct (exists_path (caddyCertsDir E) _); cbn [negb].
  - destruct (caddy_up E); cbn.
    + destruct (InitCaddy_result E); cbn; [|exact I].
      split; [|reflexivity]. right; right; right; right. split; [discriminate | reflexivity].
    + split; [discriminate|]. right. split; [reflexivity|].
      split; [right; discriminate | exact Hcf].
  - destruct (mkdir_caddy_certs E); cbn.
    + split; [discriminate|]. right. split; [reflexivity|].
      split; [left; discriminate | exact Hcf].
    + destruct (caddy_up E); cbn.
      * destruct (InitCaddy_result E); cbn; [|exact I].
        split; [|reflexivity]. right; right; right; right.
        split; [discriminate | reflexivity].
      * split; [discriminate|]. right. split; [reflexivity|].
        split; [right; discriminate|]. apply mkdir_all_keeps, Hcf.
Qed.

(** X9: a panic in the bootstrap comes from writing the Caddyfile, from
    rendering or writing the compose file, from entering the directory or
    from the admin-API initialisation, never from a mkdir or from starting
    the stack.  The handler of l.199-205 recovers it: [run] returns nil, the
    proxy directory is removed if the removal succeeds, and the rollback
    runs no subprocess, so a stack that was started before the
    initialisation failed is not stopped. *)
Theorem X9_bootstrap_panic_is_rolled_back :
  forall E o args (w w1 : world) (v : string),
    ProxyBootstrapper E o w = (Pan v, w1) ->
    (write_caddyfile E <> None
     \/ (exists e, CreateCaddyDockerComposeFile E (caddyConfig E) (domain o) = inl e)
     \/ write_caddy_compose E <> None
     \/ chdir_caddy E <> None
     \/ (InitCaddy_result E <> None /\ execs w1 = caddy_up_command :: execs w))
    /\ proxy_scope E o args w = (Ret None, cleanup E (caddyConfig E) w1)
    /\ execs (cleanup E (caddyConfig E) w1) = execs w1
    /\ (remove_all_result E (caddyConfig E) = None ->
        ~ present (caddyConfig E) (cleanup E (caddyConfig E) w1)).
Proof.
  intros E o args w w1 v H.
  pose proof (ProxyBootstrapper_outcomes E o w) as Hc. rewrite H in Hc.
  destruct Hc as [Hc _]. split; [exact Hc|].
  split.
  - unfold proxy_scope, defer_recover. rewrite (bind_Pan _ _ _ _ _ H). reflexivity.
  - unfold cleanup. destruct (remove_all_result E (caddyConfig E)); split; try reflexivity.
    + discriminate.
    + intros _. unfold present, set_fs. simpl. rewrite remove_all_gone.
      intros [x Hx]. discriminate.
Qed.

(** X10: an error the bootstrap returns comes from creating the proxy
    directory, from creating the certificate store or from starting the
    stack.  It is passed on as it is and nothing is cleaned up: unless the
    proxy directory itself could not be made, the Caddyfile written at
    l.232 is still there. *)
Theorem X10_bootstrap_error_is_not_rolled_back :
  forall E o args (w w1 : world) (e : option string),
    ProxyBootstrapper E o w = (Ret e, w1) ->
    e <> None
    /\ proxy_scope E o args w = (Ret e, w1)
    /\ ((mkdir_caddy E <> None /\ w1 = w)
        \/ (mkdir_caddy E = None
            /\ (mkdir_caddy_certs E <> None \/ caddy_up E <> Ownership.RunOk)
            /\ is_Some (fs w1 !! (caddyConfig E +:+ "/Caddyfile")))).
Proof.
  intros E o args w w1 e H.
  pose proof (ProxyBootstrapper_outcomes E o w) as Hc. rewrite H in Hc.
  destruct Hc as [He Hc]. split; [exact He|]. split; [|exact Hc].
  unfold proxy_scope, defer_recover. rewrite (bind_Ret _ _ _ _ _ H). reflexivity.
Qed.

Lemma X9_bootstrap_panic_witness :
  proxy_scope Sample2.admin_init_fails Sample.plain_options ["demo"] Sample.fresh
  = (Ret None,
     cleanup Sample2.admin_init_fails (caddyConfig Sample2.admin_init_fails)
       Sample2.after_failed_init).
Proof.
  refine (proj1 (proj2 (X9_bootstrap_panic_is_rolled_back Sample2.admin_init_fails
                          Sample.plain_options ["demo"] Sample.fresh
                          Sample2.after_failed_init _ _))).
  vm_compute. reflexivity.
Defined.

Lemma X10_bootstrap_error_witness :
  proxy_scope Sample.proxy_start_fails Sample.plain_options ["demo"] Sample.fresh
  = (Ret (Some ("Failed to start Caddy:" +:+ String "010" "Error: exit status 1"
                +:+ String "010" "Output:" +:+ String "010" "")),
     Sample2.after_failed_start).
Proof.
  refine (proj1 (proj2 (X10_bootstrap_error_is_not_rolled_back Sample.proxy_start_fails
                          Sample.plain_options ["demo"] Sample.fresh
                          Sample2.after_failed_start _ _))).
  vm_compute. reflexivity.
Defined.

End ProxyBootstrap.

(** *** Certificates *)

Section Certificates.
Import Host Go Init Stages More.


(** X13: with [--mkcerts] the directory given with [--certs-dir] is never
    used: the certificate stage is the same whatever that option is. *)
Theorem X13_mkcerts_overrides_certs_dir :
  forall E o (dir : string),
    mkCerts o = true ->
    CertificateInstaller E (with_certsDir dir o) = CertificateInstaller E o.
Proof.
  intros E o dir H. unfold CertificateInstaller, with_certsDir. simpl.
  rewrite H. reflexivity.
Qed.

Lemma X13_mkcerts_witness :
  CertificateInstaller Sample.all_ok (with_certsDir "/elsewhere" Sample2.mkcerts_options)
  = CertificateInstaller Sample.all_ok Sample2.mkcerts_options.
Proof.
  apply (X13_mkcerts_overrides_certs_dir Sample.all_ok Sample2.mkcerts_options "/elsewhere").
  reflexivity.
Defined.

(** X14: a panic of the certificate stage (the source directory or one of
    its files cannot be read, a copy cannot be written) reaches the handler
    of the proxy stage, the only one deferred by then.  [run] returns nil
    and the proxy's config directory is removed, also when the proxy was
    already running and this run had not created it. *)
Theorem X14_certificate_panic_removes_proxy_config :
  forall E o args (w w1 : world) (v : string),
    admin_probe E = None ->
    CertificateInstaller E o w = (Pan v, w1) ->
    proxy_scope E o args w = (Ret None, cleanup E (caddyConfig E) w1)
    /\ (remove_all_result E (caddyConfig E) = None ->
        ~ present (caddyConfig E) (cleanup E (caddyConfig E) w1)).
Proof.
  intros E o args w w1 v Hup H. split.
  - unfold proxy_scope, defer_recover.
    assert (Hpb : ProxyBootstrapper E o w = (Ok tt, w)).
    { unfold ProxyBootstrapper, caddy_running. rewrite Hup. reflexivity. }
    rewrite (bind_Ok _ _ _ _ _ Hpb), (bind_Pan _ _ _ _ _ H). reflexivity.
  - intros Hrm. unfold cleanup. rewrite Hrm. unfold present, set_fs. simpl.
    rewrite remove_all_gone. intros [x Hx]. discriminate.
Qed.

Lemma X14_certificate_panic_witness :
  fst (proxy_scope Sample2.certs_unreadable Sample2.certs_options ["demo"] Sample.with_demo)
  = Ret None
  /\ ~ present (caddyConfig Sample2.certs_unreadable)
         (snd (proxy_scope Sample2.certs_unreadable Sample2.certs_options ["demo"]
                 Sample.with_demo)).
Proof.
  destruct (X14_certificate_panic_removes_proxy_config Sample2.certs_unreadable
              Sample2.certs_options ["demo"] Sample.with_demo
              (snd (CertificateInstaller Sample2.certs_unreadable Sample2.certs_options
                      Sample.with_demo))
              "Failed to read certs directory: permission denied"
              eq_refl) as [H1 H2].
  - vm_compute. reflexivity.
  - rewrite H1. split; [reflexivity | apply H2; reflexivity].
Defined.

Lemma clean_keep_suffix (a b : string) :
  rstrip b = b -> b <> "" -> clean (a +:+ b) = a +:+ b.
Proof. intros Hb Hne. rewrite clean_app_keep; rewrite Hb; auto. Qed.

Lemma rename_path_lookup (a b : string) (m : gmap string node) (n : node) (q : string) :
  m !! clean a = Some n ->
  rename_path a b m !! q
  = if decide (clean b = q) then Some n
    else if decide (clean a = q) then None else m !! q.
Proof.
  intros Ha. unfold rename_path. rewrite Ha.
  destruct (decide (clean b = q)) as [->|Hb]; [apply lookup_insert_eq|].
  rewrite lookup_insert_ne by exact Hb.
  destruct (decide (clean a = q)) as [->|Hq]; [apply lookup_delete_eq|].
  apply lookup_delete_ne, Hq.
Qed.

(** X12: when [generateWildcardCerts] succeeds, the directory it returns is
    the temporary one; in it [private-key.pem] holds the key and
    [full-chain.pem] the certificate that mkcert wrote, and the two files
    under mkcert's own names are gone. *)
Theorem X12_generateWildcardCerts_files :
  forall E (dom dir : string) (w w' : world),
    generateWildcardCerts E dom w = (Ok (dir, None), w') ->
    mkdir_temp E = inr dir
    /\ fs w' !! (dir +:+ "/private-key.pem") = Some (File (mkcert_key E))
    /\ fs w' !! (dir +:+ "/full-chain.pem") = Some (File (mkcert_cert E))
    /\ fs w' !! (dir +:+ "/_wildcard." +:+ dom +:+ "-key.pem") = None
    /\ fs w' !! (dir +:+ "/_wildcard." +:+ dom +:+ ".pem") = None
    /\ execs w' = mkcert_command dom :: execs w.
Proof.
  intros E dom dir w w'. unfold generateWildcardCerts.
  destruct (mkdir_temp E) as [e|tempDir]; [discriminate|]. cbv zeta.
  destruct (getwd E); [discriminate|].
  destruct (chdir_temp E); [discriminate|].
  destruct (mkcert E); [|discriminate].
  destruct (rename_key E); [discriminate|].
  destruct (rename_cert E); [discriminate|].
  intros H. injection H as <- <-. split; [reflexivity|].
  cbn [set_fs fs execs cwd api worktree_branch].
  set (kK := tempDir +:+ "/" +:+ "_wildcard." +:+ dom +:+ "-key.pem").
  set (kC := tempDir +:+ "/" +:+ "_wildcard." +:+ dom +:+ ".pem").
  set (kP := tempDir +:+ "/" +:+ "private-key.pem").
  set (kF := tempDir +:+ "/" +:+ "full-chain.pem").
  assert (HkK : clean kK = kK).
  { unfold kK. rewrite <- !append_assoc. apply clean_keep_suffix; [reflexivity | discriminate]. }
  assert (HkC : clean kC = kC).
  { unfold kC. rewrite <- !append_assoc. apply clean_keep_suffix; [reflexivity | discriminate]. }
  assert (HkP : clean kP = kP).
  { unfold kP. apply clean_keep_suffix; [reflexivity | discriminate]. }
  assert (HkF : clean kF = kF).
  { unfold kF. apply clean_keep_suffix; [reflexivity | discriminate]. }
  assert (HKC : kK <> kC).
  { unfold kK, kC. intros H. do 4 apply append_inv_head in H. discriminate. }
  assert (HKP : kK <> kP).
  { unfold kK, kP. intros H. do 2 apply append_inv_head in H.
    rewrite append_cons in H. discriminate. }
  assert (HKF : kK <> kF).
  { unfold kK, kF. intros H. do 2 apply append_inv_head in H.
    rewrite append_cons in H. discriminate. }
  assert (HCP : kC <> kP).
  { unfold kC, kP. intros H. do 2 apply append_inv_head in H.
    rewrite append_cons in H. discriminate. }
  assert (HCF : kC <> kF).
  { unfold kC, kF. intros H. do 2 apply append_inv_head in H.
    rewrite append_cons in H. discriminate. }
  assert (HPF : kP <> kF).
  { unfold kP, kF. intros H. do 2 apply append_inv_head in H. discriminate. }
  set (m0 := mkdir tempDir (fs w)).
  set (m1 := write_file kC (mkcert_cert E) (write_file kK (mkcert_key E) m0)).
  assert (H1K : m1 !! kK = Some (File (mkcert_key E))).
  { unfold m1, write_file. rewrite HkK, HkC.
    rewrite lookup_insert_ne by auto. apply lookup_insert_eq. }
  assert (H1C : m1 !! kC = Some (File (mkcert_cert E))).
  { unfold m1, write_file. rewrite HkC. apply lookup_insert_eq. }
  set (m2 := rename_path kK kP m1).
  assert (H2 : forall q, m2 !! q
             = if decide (kP = q) then Some (File (mkcert_key E))
               else if decide (kK = q) then None else m1 !! q).
  { intros q. unfold m2. rewrite (rename_path_lookup kK kP m1 (File (mkcert_key E)) q).
    - rewrite HkK, HkP. reflexivity.
    - rewrite HkK. exact H1K. }
  assert (H2C : m2 !! clean kC = Some (File (mkcert_cert E))).
  { rewrite HkC, H2. rewrite decide_False by auto. rewrite decide_False by auto.
    exact H1C. }
  assert (H3 : forall q, rename_path kC kF m2 !! q
             = if decide (kF = q) then Some (File (mkcert_cert E))
               else if decide (kC = q) then None else m2 !! q).
  { intros q. rewrite (rename_path_lookup kC kF m2 (File (mkcert_cert E)) q H2C).
    rewrite HkC, HkF. reflexivity. }
  change (tempDir +:+ "/private-key.pem") with kP.
  change (tempDir +:+ "/full-chain.pem") with kF.
  change (tempDir +:+ "/_wildcard." +:+ dom +:+ "-key.pem")
    with (tempDir +:+ ("/" +:+ "_wildcard.") +:+ dom +:+ "-key.pem").
  change (tempDir +:+ "/_wildcard." +:+ dom +:+ ".pem")
    with (tempDir +:+ ("/" +:+ "_wildcard.") +:+ dom +:+ ".pem").
  rewrite !(append_assoc "/" "_wildcard."). fold kK kC.
  rewrite !H3, !H2.
  repeat split.
  - rewrite decide_False by auto. rewrite decide_False by auto.
    rewrite decide_True by reflexivity. reflexivity.
  - rewrite decide_True by reflexivity. reflexivity.
  - rewrite decide_False by auto. rewrite decide_False by auto.
    rewrite decide_False by auto. rewrite decide_True by reflexivity. reflexivity.
  - rewrite decide_False by auto. rewrite decide_True by reflexivity. reflexivity.
Qed.

Lemma X12_generateWildcardCerts_witness :
  fs (snd (generateWildcardCerts Sample.all_ok "demo.example.com" Sample.fresh))
    !! ("/tmp/certs-1" +:+ "/private-key.pem") = Some (File "KEY").
Proof.
  refine (proj1 (proj2 (X12_generateWildcardCerts_files Sample.all_ok "demo.example.com"
                          "/tmp/certs-1" Sample.fresh _ _))).
  vm_compute. reflexivity.
Defined.

Lemma copy_certs_file E (src dst name : string) (rest : list (string * bool)) (w : world) :
  read_cert E (src +:+ "/" +:+ name) = None ->
  write_cert E (dst +:+ "/" +:+ name) = None ->
  copy_certs E src dst ((name, false) :: rest) w
  = copy_certs E src dst rest
      (set_fs (write_file (dst +:+ "/" +:+ name)
                 (read_file (src +:+ "/" +:+ name) (fs w))) w).
Proof.
  intros Hr Hw. cbn [copy_certs].
  unfold bind at 1. unfold bind at 1. unfold or_panic at 1. unfold bind at 1.
  unfold ret at 1. rewrite Hr. unfold ret at 1.
  unfold bind at 1. unfold or_panic at 1. unfold bind at 1.
  unfold os_WriteFile. rewrite Hw. reflexivity.
Qed.

(** X23: when every read and write succeeds, the loop of l.316-332 goes
    through and copies each regular file of the listing to the same name
    in the destination, with the content the source file had; directories
    are skipped; no other path changes, and no subprocess is run.  The
    destination names must not collide with each other or with the source
    files. *)
Theorem X23_certificates_are_copied :
  forall E (src dst : string),
    (forall p, read_cert E p = None) ->
    (forall p, write_cert E p = None) ->
    forall (certs : list (string * bool)) (w : world),
      (forall n n', In (n, false) certs -> In (n', false) certs ->
                    clean (dst +:+ "/" +:+ n) <> clean (src +:+ "/" +:+ n')) ->
      (forall n n', In (n, false) certs -> In (n', false) certs ->
                    clean (dst +:+ "/" +:+ n) = clean (dst +:+ "/" +:+ n') -> n = n') ->
      exists w',
        copy_certs E src dst certs w = (Ok tt, w')
        /\ execs w' = execs w /\ api w' = api w /\ cwd w' = cwd w
        /\ (forall n, In (n, false) certs ->
              fs w' !! clean (dst +:+ "/" +:+ n)
              = Some (File (read_file (src +:+ "/" +:+ n) (fs w))))
        /\ (forall q, (forall n, In (n, false) certs -> q <> clean (dst +:+ "/" +:+ n)) ->
              fs w' !! q = fs w !! q).
Proof.
  intros E src dst Hr Hw certs.
  induction certs as [|[name isDir] rest IH]; intros w Hdis Hinj.
  - exists w. repeat split; auto. intros n [].
  - destruct isDir.
    + destruct (IH w) as (w' & Hc & Hx & Ha & Hcw & Hfiles & Hframe).
      * intros n n' Hn Hn'. apply Hdis; right; assumption.
      * intros n n' Hn Hn'. apply Hinj; right; assumption.
      * exists w'. cbn [copy_certs]. repeat split; try assumption.
        -- intros n [Hn|Hn]; [discriminate | apply Hfiles, Hn].
        -- intros q Hq. apply Hframe. intros n Hn. apply Hq. right. exact Hn.
    + rewrite (copy_certs_file E src dst name rest w (Hr _) (Hw _)).
      set (w1 := set_fs (write_file (dst +:+ "/" +:+ name)
                           (read_file (src +:+ "/" +:+ name) (fs w))) w).
      assert (Hsrc : forall n, In (n, false) ((name, false) :: rest) ->
                read_file (src +:+ "/" +:+ n) (fs w1) = read_file (src +:+ "/" +:+ n) (fs w)).
      { intros n Hn. unfold read_file, w1, set_fs, write_file. cbn [fs].
        rewrite lookup_insert_ne; [reflexivity|].
        apply Hdis; [left; reflexivity | exact Hn]. }
      destruct (IH w1) as (w' & Hc & Hx & Ha & Hcw & Hfiles & Hframe).
      * intros n n' Hn Hn'. apply Hdis; right; assumption.
      * intros n n' Hn Hn'. apply Hinj; right; assumption.
      * exists w'. split; [exact Hc|]. split; [exact Hx|]. split; [exact Ha|].
        split; [exact Hcw|]. split.
        -- intros n Hn.
           destruct (decide ((n, false) ∈ rest)) as [Hin|Hnin].
           ++ apply list_elem_of_In in Hin. rewrite (Hfiles n Hin), (Hsrc n Hn). reflexivity.
           ++ destruct Hn as [Hn|Hn]; [|exfalso; apply Hnin, list_elem_of_In, Hn].
              injection Hn as <-.
              rewrite Hframe.
              ** unfold w1, set_fs, write_file. cbn [fs]. apply lookup_insert_eq.
              ** intros m Hm Heq. apply Hnin, list_elem_of_In.
                 rewrite (Hinj name m) at 1; [exact Hm | left; reflexivity
                                              | right; exact Hm | exact Heq].
        -- intros q Hq. rewrite Hframe.
           ++ unfold w1, set_fs, write_file. cbn [fs]. apply lookup_insert_ne.
              intros Heq. apply (Hq name); [left; reflexivity | symmetry; exact Heq].
           ++ intros n Hn. apply Hq. right. exact Hn.
Qed.

Lemma X23_certificates_witness :
  exists w',
    copy_certs Sample.all_ok "/certs" "/store"
      [("full-chain.pem", false); ("old", true); ("private-key.pem", false)]
      Sample.fresh = (Ok tt, w')
    /\ execs w' = execs Sample.fresh /\ api w' = api Sample.fresh
    /\ cwd w' = cwd Sample.fresh
    /\ (forall n,
          In (n, false) [("full-chain.pem", false); ("old", true); ("private-key.pem", false)] ->
          fs w' !! clean ("/store" +:+ "/" +:+ n)
          = Some (File (read_file ("/certs" +:+ "/" +:+ n) (fs Sample.fresh))))
    /\ (forall q,
          (forall n,
             In (n, false)
               [("full-chain.pem", false); ("old", true); ("private-key.pem", false)] ->
             q <> clean ("/store" +:+ "/" +:+ n)) ->
          fs w' !! q = fs Sample.fresh !! q).
Proof.
  apply (X23_certificates_are_copied Sample.all_ok "/certs" "/store").
  - reflexivity.
  - reflexivity.
  - intros n n' [H|[H|[H|[]]]] [H'|[H'|[H'|[]]]];
      try discriminate; injection H as <-; injection H' as <-; discriminate.
  - intros n n' [H|[H|[H|[]]]] [H'|[H'|[H'|[]]]];
      try discriminate; injection H as <-; injection H' as <-;
      intros Heq; try reflexivity; vm_compute in Heq; discriminate Heq.
Defined.

End Certificates.

(** *** The workspace stages *)

Section WorkspaceStages.
Import Host Go Init Stages More.

Lemma bind_Ok_inv {A B} (c : M A) (k : A -> M B) (w w' : world) (b : B) :
  bind c k w = (Ok b, w') ->
  exists a w1, c w = (Ok a, w1) /\ k a w1 = (Ok b, w').
Proof.
  unfold bind. destruct (c w) as [[a|e|v] w1]; try discriminate. eauto.
Qed.

Lemma SecretManager_keeps_paths E args : Respects keeps_paths (SecretManager E args).
Proof.
  apply Respects_SecretManager with (good_fs := only_adds) (good_cmd := fun _ => True);
    try (intros; exact I).
  - apply keeps_paths_refl.
  - apply keeps_paths_trans.
  - intros w f cw wt Hf p Hp. simpl. apply Hf, Hp.
  - intros w c _ p Hp. exact Hp.
  - apply mkdir_all_keeps.
  - apply mkdir_keeps.
  - intros f g Hf Hg m p Hp. apply Hf, Hg, Hp.
Qed.

Lemma DeploymentComposer_keeps_paths E o args d :
  Respects keeps_paths (DeploymentComposer E o args d).
Proof.
  apply Respects_DeploymentComposer with (good_fs := only_adds) (good_cmd := fun _ => True);
    try (intros; exact I).
  - apply keeps_paths_refl.
  - apply keeps_paths_trans.
  - intros w f cw wt Hf p Hp. simpl. apply Hf, Hp.
  - intros w c _ p Hp. exact Hp.
  - intros w c p Hp. exact Hp.
  - intros m p Hp. exact Hp.
  - apply mkdir_all_keeps.
  - apply mkdir_keeps.
  - apply write_file_keeps.
  - intros f g Hf Hg m p Hp. apply Hf, Hg, Hp.
Qed.

Lemma kp_bind {A B} (c : M A) (k : A -> M B) :
  Respects keeps_paths c -> (forall a, Respects keeps_paths (k a)) ->
  Respects keeps_paths (bind c k).
Proof. apply Respects_bind. apply keeps_paths_trans. Qed.

Lemma kp_same {A} (c : M A) : (forall w, snd (c w) = w) -> Respects keeps_paths c.
Proof. intros H w. rewrite H. apply keeps_paths_refl. Qed.

Lemma kp_run_command out dir argv : Respects keeps_paths (run_command out dir argv).
Proof.
  apply Respects_run_command with (good_fs := only_adds) (good_cmd := fun _ => True);
    try (intros; exact I).
  - apply keeps_paths_refl.
  - apply keeps_paths_trans.
  - intros w f cw wt Hf p Hp. simpl. apply Hf, Hp.
  - intros w c _ p Hp. exact Hp.
  - apply mkdir_all_keeps.
  - apply mkdir_keeps.
  - intros f g Hf Hg m p Hp. apply Hf, Hg, Hp.
Qed.

Lemma kp_or_panic msg (c : M error) :
  Respects keeps_paths c -> Respects keeps_paths (or_panic msg c).
Proof.
  intros H. apply kp_bind; [exact H|]. intros [e|]; apply kp_same; reflexivity.
Qed.

Lemma kp_changeOwnership chown stat dir uid gid :
  Respects keeps_paths (changeOwnership chown stat dir uid gid).
Proof. intros w. rewrite changeOwnership_step. intros p Hp. exact Hp. Qed.

Lemma kp_Mkdir out p : Respects keeps_paths (os_Mkdir out p).
Proof.
  intros w. unfold os_Mkdir. destruct out; [apply keeps_paths_refl|].
  intros q Hq. apply mkdir_keeps, Hq.
Qed.

(** Once the workspace directory has been made, it is there however
    [WorkspaceProvisioner] ends. *)
Lemma WorkspaceProvisioner_after_mkdir E o args (w : world) :
  exists_path (gitopsConfig E args) w = false ->
  mkdir_gitops E = None ->
  present (gitopsConfig E args) (snd (WorkspaceProvisioner E o args w)).
Proof.
  intros Hex Hmk. unfold WorkspaceProvisioner.
  unfold bind at 1. unfold os_Stat_IsNotExist. rewrite Hex. cbn [negb].
  unfold bind at 1. unfold or_return at 1. unfold bind at 1. unfold os_MkdirAll.
  rewrite Hmk. cbn [ret].
  match goal with
  | |- present _ (snd (?tail ?w0)) =>
      assert (Hk : Respects keeps_paths tail); [|apply (Hk w0), mkdir_all_present]
  end.
  apply kp_bind.
  { destruct (negb (String.eqb (remoteRepo o) "")).
    - apply kp_or_panic, kp_run_command.
    - apply kp_bind; [apply kp_Mkdir|].
      intros [e|]; [apply kp_same; reflexivity | apply kp_or_panic, kp_run_command]. }
  intros _. apply kp_bind; [apply kp_changeOwnership|].
  intros [e|]; [apply kp_same; reflexivity|].
  apply kp_bind; [apply kp_run_command|].
  intros [e|]; [apply kp_same; reflexivity|].
  apply kp_bind; [apply kp_or_panic, kp_run_command|]. intros _.
  destruct (negb (String.eqb (remoteRepo o) "")); [|apply kp_same; reflexivity].
  apply kp_bind; [apply kp_or_panic, kp_run_command|]. intros _.
  apply kp_or_panic, kp_run_command.
Qed.

Lemma mkdir_present (p : string) (m : gmap string node) : is_Some (mkdir p m !! clean p).
Proof.
  unfold mkdir, add_dir. destruct (m !! clean p) eqn:Hl.
  - rewrite Hl. eauto.
  - rewrite lookup_insert_eq. eauto.
Qed.

Lemma WorkspaceProvisioner_success E o args (w w1 : world) :
  WorkspaceProvisioner E o args w = (Ok tt, w1) ->
  exists_path (gitopsConfig E args) w = false
  /\ mkdir_gitops E = None
  /\ present (gitopsWorkspace E args) w1.
Proof.
  intros H. unfold WorkspaceProvisioner in H.
  apply bind_Ok_split in H as (missing & w0 & Hst & H).
  apply stat_Ok in Hst as [-> ->].
  destruct (exists_path (gitopsConfig E args) w); cbn [negb] in H; [discriminate H|].
  split; [reflexivity|].
  apply bind_Ok_split in H as ([] & wa & Hmk & H).
  apply or_return_Ok, MkdirAll_Ok in Hmk as [Hmk ->]. split; [exact Hmk|].
  apply bind_Ok_split in H as ([] & wb & Hrepo & H).
  assert (Hws : present (gitopsWorkspace E args) wb).
  { destruct (negb (String.eqb (remoteRepo o) "")).
    - apply or_panic_Ok, run_command_Ok in Hrepo as [_ ->].
      rewrite subprocess_effect_clone. apply mkdir_keeps, mkdir_all_present.
    - apply bind_Ok_split in Hrepo as (e & wm & Hm & Hrepo).
      apply Mkdir_step in Hm as [-> ->].
      destruct (mkdir_workspace E); [discriminate Hrepo|].
      apply or_panic_Ok, run_command_Ok in Hrepo as [_ ->].
      rewrite subprocess_effect_init. apply mkdir_keeps, mkdir_present. }
  apply bind_Ok_split in H as (e & wc & Hch & H).
  rewrite changeOwnership_step in Hch. injection Hch as <- <-.
  destruct (Ownership.changeOwnership _ _ _ _); [discriminate H|].
  apply bind_Ok_split in H as (e & wd & Hwt & H).
  destruct e; [discriminate H|].
  apply run_command_Ok in Hwt as [_ ->].
  cbn [worktree_add_command cmd_dir cmd_argv] in H.
  rewrite subprocess_effect_worktree in H.
  apply bind_Ok_split in H as ([] & we & Hsafe & H).
  apply or_panic_Ok, run_command_Ok in Hsafe as [_ ->].
  assert (Hfin : forall wx : world,
            fs wx = mkdir_all (gitopsWorktree E args) (fs wb) ->
            present (gitopsWorkspace E args) wx).
  { intros wx Hfs. unfold present. rewrite Hfs. apply mkdir_all_keeps, Hws. }
  destruct (negb (String.eqb (remoteRepo o) "")).
  - apply bind_Ok_split in H as ([] & wf & Hcommit & H).
    apply or_panic_Ok, run_command_Ok in Hcommit as [_ ->].
    apply or_panic_Ok, run_command_Ok in H as [_ ->].
    apply Hfin. reflexivity.
  - injection H as <-. apply Hfin. reflexivity.
Qed.

Lemma SecretManager_success E args (w w1 : world) :
  SecretManager E args w = (Ok tt, w1) ->
  present (secretsDir E args) w1 /\ cwd w1 = cwd w /\ api w1 = api w.
Proof.
  unfold SecretManager, changeOwnership, or_return, or_panic, bind, os_MkdirAll,
    run_command, ret, return_, panic.
  destruct (mkdir_secrets E); [discriminate|].
  assert (H1 : is_Some (mkdir_all (secretsDir E args) (fs w) !! clean (secretsDir E args)))
    by apply mkdir_all_present.
  unfold present.
  destruct (chown_secrets E); cbn [Ownership.changeOwnership].
  - intros H; injection H as <-. split; [exact H1 | split; reflexivity].
  - destruct (stat_secrets E) as [|[st|]]; [discriminate | | ].
    + destruct (Nat.eqb (Ownership.Uid st) 1000); [|discriminate].
      intros H; injection H as <-. split; [exact H1 | split; reflexivity].
    + intros H; injection H as <-. split; [exact H1 | split; reflexivity].
Qed.

Lemma clean_workspace_compose E args :
  clean (gitopsDeployment E args +:+ "/docker-compose.yml")
  = gitopsDeployment E args +:+ "/docker-compose.yml".
Proof. apply clean_app_keep. discriminate. Qed.

Lemma subprocess_effect_six (dir : option string) (a b c d e f : string) (w : world) :
  subprocess_effect dir [a; b; c; d; e; f] w = w.
Proof. reflexivity. Qed.

Lemma DeploymentComposer_success E o args d (w w1 : world) :
  DeploymentComposer E o args d w = (Ok tt, w1) ->
  exists gi ei compose token,
    image_ref E (gitopsImage o) "bitswan/gitops:"
      "https://hub.docker.com/v2/repositories/bitswan/gitops/tags/" = Some gi
    /\ image_ref E (editorImage o) "bitswan/bitswan-editor:"
         "https://hub.docker.com/v2/repositories/bitswan/bitswan-editor/tags/" = Some ei
    /\ CreateDockerComposeFile E (gitopsConfig E args) (gitopsName args) gi ei
         (domain o) (noIde o) = inr (compose, token)
    /\ present (gitopsDeployment E args) w1
    /\ fs w1 !! (gitopsDeployment E args +:+ "/docker-compose.yml") = Some (File compose)
    /\ cwd w1 = gitopsDeployment E args
    /\ execs w1 = compose_up_command args :: execs w
    /\ api w1 = AddCaddyRecords (gitopsName args) (domain o)
                  (negb (String.eqb d "")) (noIde o) :: api w.
Proof.
  unfold DeploymentComposer. intros H.
  destruct (image_ref E (gitopsImage o) _ _) as [gi|] eqn:Hgi.
  2:{ destruct (resolve_image_fails E _ _ _
                  "Failed to get latest BitSwan GitOps version: " w Hgi) as [v Hv].
      rewrite (bind_Pan _ _ _ _ _ Hv) in H. discriminate. }
  rewrite (bind_Ok _ _ _ _ _ (resolve_image_ok E _ _ _ _ _ w Hgi)) in H.
  destruct (image_ref E (editorImage o) _ _) as [ei|] eqn:Hei.
  2:{ destruct (resolve_image_fails E _ _ _
                  "Failed to get latest BitSwan Editor version: " w Hei) as [v Hv].
      rewrite (bind_Pan _ _ _ _ _ Hv) in H. discriminate. }
  rewrite (bind_Ok _ _ _ _ _ (resolve_image_ok E _ _ _ _ _ w Hei)) in H.
  apply bind_Ok_split in H as ([] & wa & Hmk & H).
  apply or_return_Ok, MkdirAll_Ok in Hmk as [_ ->].
  apply bind_Ok_split in H as ([] & wb & Hapi & H).
  apply or_panic_Ok, call_api_Ok in Hapi as [_ ->].
  apply bind_Ok_split in H as ([compose token] & wc & Hct & H).
  unfold value_or_panic in Hct.
  destruct (CreateDockerComposeFile E _ _ gi ei _ _) as [e|ct] eqn:Hc;
    [discriminate Hct|].
  injection Hct as -> <-.
  apply bind_Ok_split in H as ([] & wd & Hwr & H).
  apply or_panic_Ok, WriteFile_Ok in Hwr as [_ ->].
  apply bind_Ok_split in H as ([] & we & Hcd & H).
  apply or_panic_Ok, Chdir_Ok in Hcd as [_ ->].
  apply bind_Ok_split in H as ([] & wf & Hup & H).
  apply or_panic_Ok, run_command_Ok in Hup as [_ ->].
  cbn [compose_up_command cmd_dir cmd_argv] in H. rewrite subprocess_effect_six in H.
  assert (Hw1 : w1 = ran (compose_up_command args)
                  (World (write_file (gitopsDeployment E args +:+ "/docker-compose.yml")
                            compose (mkdir_all (gitopsDeployment E args) (fs w)))
                     (gitopsDeployment E args) (execs w)
                     (AddCaddyRecords (gitopsName args) (domain o)
                        (negb (String.eqb d "")) (noIde o) :: api w)
                     (worktree_branch w))).
  { destruct (negb (noIde o)).
    - apply bind_Ok_split in H as (pw & wg & Hpw & H).
      unfold value_or_panic in Hpw. destruct (GetEditorPassword E _ _); [discriminate Hpw|].
      injection Hpw as _ <-. injection H as <-. reflexivity.
    - injection H as <-. reflexivity. }
  exists gi, ei, compose, token. subst w1.
  split; [reflexivity|]. split; [reflexivity|]. split; [exact Hc|].
  split; [apply write_file_keeps, mkdir_all_present|].
  split; [|repeat split].
  cbn [ran fs]. unfold write_file. rewrite clean_workspace_compose. apply lookup_insert_eq.
Qed.

(** X15: when the workspace stages go through, the workspace's config
    directory holds the four subdirectories [workspace], [gitops],
    [secrets] and [deployment]; [deployment/docker-compose.yml] is the
    compose file rendered for the resolved images, the domain and the
    editor flag; the last subprocess run is the start of the stack
    [<name>-site]; and the working directory is the deployment directory. *)
Theorem X15_successful_init_layout :
  forall E o args (d : string) (w w' : world),
    workspace_stages E o args d w = (Ok tt, w') ->
    present (gitopsConfig E args) w'
    /\ present (gitopsWorkspace E args) w'
    /\ present (gitopsWorktree E args) w'
    /\ present (secretsDir E args) w'
    /\ present (gitopsDeployment E args) w'
    /\ cwd w' = gitopsDeployment E args
    /\ (exists rest, execs w' = compose_up_command args :: rest)
    /\ exists gi ei compose token,
         image_ref E (gitopsImage o) "bitswan/gitops:"
           "https://hub.docker.com/v2/repositories/bitswan/gitops/tags/" = Some gi
         /\ image_ref E (editorImage o) "bitswan/bitswan-editor:"
              "https://hub.docker.com/v2/repositories/bitswan/bitswan-editor/tags/"
            = Some ei
         /\ CreateDockerComposeFile E (gitopsConfig E args) (gitopsName args) gi ei
              (domain o) (noIde o) = inr (compose, token)
         /\ fs w' !! (gitopsDeployment E args +:+ "/docker-compose.yml")
            = Some (File compose).
Proof.
  intros E o args d w w' H. unfold workspace_stages in H.
  apply bind_Ok_split in H as ([] & w1 & Hwp & H).
  apply bind_Ok_split in H as ([] & w2 & Hsm & Hdc).
  destruct (WorkspaceProvisioner_success E o args w w1 Hwp) as (Hex & Hmk & Hws).
  pose proof (WorkspaceProvisioner_after_mkdir E o args w Hex Hmk) as Hcfg.
  rewrite Hwp in Hcfg. cbn [snd] in Hcfg.
  destruct (WorkspaceProvisioner_worktree E o args w w1 Hwp) as (_ & _ & Hwt).
  destruct (SecretManager_success E args w1 w2 Hsm) as (Hsec & _ & _).
  pose proof (SecretManager_keeps_paths E args w1) as K1. rewrite Hsm in K1. cbn [snd] in K1.
  pose proof (DeploymentComposer_keeps_paths E o args d w2) as K2.
  rewrite Hdc in K2. cbn [snd] in K2.
  destruct (DeploymentComposer_success E o args d w2 w' Hdc)
    as (gi & ei & compose & token & Hgi & Hei & Hc & Hdep & Hfile & Hcwd & Hex' & _).
  split; [apply K2, K1, Hcfg|]. split; [apply K2, K1, Hws|].
  split; [apply K2, K1, Hwt|]. split; [apply K2, Hsec|].
  split; [exact Hdep|]. split; [exact Hcwd|]. split; [eauto|].
  exists gi, ei, compose, token. auto.
Qed.

Lemma X15_successful_init_witness :
  present (gitopsConfig Sample.all_ok ["demo"])
    (snd (workspace_stages Sample.all_ok Sample.plain_options ["demo"] "" Sample.fresh)).
Proof.
  refine (proj1 (X15_successful_init_layout Sample.all_ok Sample.plain_options ["demo"]
                   "" Sample.fresh _ _)).
  vm_compute. reflexivity.
Defined.

(** X16: an error that the workspace stages return (the workspace
    subdirectory, the secrets or the deployment directory cannot be made,
    or a chown fails on a directory of another owner) is not rolled back:
    [run]'s handler does nothing, the workspace's config directory made at
    l.357 stays, and a second attempt with the same name then ends in the
    conflict error. *)
Theorem X16_returned_error_leaves_workspace_directory :
  forall E o args (d : string) (w w' : world) (e : string),
    workspace_scope E o args d w = (Ret (Some e), w') ->
    e <> "GitOps with this name was already initialized: " +:+ gitopsName args ->
    mkdir_gitops E = None ->
    workspace_stages E o args d w = (Ret (Some e), w')
    /\ present (gitopsConfig E args) w'
    /\ forall E' o' d',
         HOME E' = HOME E ->
         workspace_scope E' o' args d' w' = (Ret (conflict_error args), w').
Proof.
  intros E o args d w w' e H Hne Hmk.
  assert (Hst : workspace_stages E o args d w = (Ret (Some e), w')).
  { unfold workspace_scope, defer_recover in H.
    destruct (workspace_stages E o args d w) as [[[]|e'|v] w2]; try discriminate; exact H. }
  split; [exact Hst|].
  assert (Hex : exists_path (gitopsConfig E args) w = false).
  { destruct (exists_path (gitopsConfig E args) w) eqn:Hex; [|reflexivity].
    exfalso. apply Hne.
    unfold workspace_stages, WorkspaceProvisioner in Hst.
    unfold bind at 1 in Hst. unfold bind at 1 in Hst. unfold os_Stat_IsNotExist in Hst.
    rewrite Hex in Hst. cbn in Hst. injection Hst as Hst _. symmetry. exact Hst. }
  assert (Hp : present (gitopsConfig E args) w').
  { pose proof (WorkspaceProvisioner_after_mkdir E o args w Hex Hmk) as Hcfg.
    unfold workspace_stages in Hst. unfold bind at 1 in Hst.
    destruct (WorkspaceProvisioner E o args w) as [[[]|e1|v1] w1]; cbn [snd] in Hcfg.
    - pose proof (SecretManager_keeps_paths E args w1) as K1.
      unfold bind at 1 in Hst.
      destruct (SecretManager E args w1) as [[[]|e2|v2] w2]; cbn [snd] in K1.
      + pose proof (DeploymentComposer_keeps_paths E o args d w2) as K2.
        rewrite Hst in K2. apply K2, K1, Hcfg.
      + injection Hst as _ <-. apply K1, Hcfg.
      + discriminate Hst.
    - injection Hst as _ <-. exact Hcfg.
    - discriminate Hst. }
  split; [exact Hp|].
  intros E' o' d' Hhome.
  unfold workspace_scope, defer_recover, workspace_stages, WorkspaceProvisioner.
  unfold bind at 1. unfold bind at 1. unfold os_Stat_IsNotExist.
  assert (Hcfg' : gitopsConfig E' args = gitopsConfig E args).
  { unfold gitopsConfig, bitswanConfig. rewrite Hhome. reflexivity. }
  rewrite Hcfg'. unfold exists_path. rewrite bool_decide_eq_true_2 by exact Hp.
  reflexivity.
Qed.

(** X17: a panic in the workspace stages never reaches the caller of
    [run]: the handler of l.345-351 recovers it and [run] returns nil, the
    value it also returns after a complete initialisation. *)
Theorem X17_recovered_panic_returns_nil :
  forall E o args (d : string) (w w1 w2 : world) (v : string),
    before_workspace E o w = (Ok d, w1) ->
    workspace_stages E o args d w1 = (Pan v, w2) ->
    run E o args w = (Ret None, cleanup E (gitopsConfig E args) w2)
    /\ outcome_of (fst (run E o args w)) = Returned None
    /\ execs (snd (run E o args w)) = execs w2
    /\ api (snd (run E o args w)) = api w2.
Proof.
  intros E o args d w w1 w2 v Hpre Hst.
  assert (Hrun : run E o args w = (Ret None, cleanup E (gitopsConfig E args) w2)).
  { rewrite (run_after_prefix _ _ _ _ _ _ Hpre).
    unfold workspace_scope, defer_recover. rewrite Hst. reflexivity. }
  rewrite Hrun. split; [reflexivity|]. split; [reflexivity|].
  unfold cleanup. destruct (remove_all_result E (gitopsConfig E args)); split; reflexivity.
Qed.

Lemma X16_returned_error_witness :
  present (gitopsConfig Sample2.chown_denied ["demo"]) Sample2.after_chown_denied.
Proof.
  refine (proj1 (proj2 (X16_returned_error_leaves_workspace_directory Sample2.chown_denied
                          Sample.plain_options ["demo"] "" Sample.fresh
                          Sample2.after_chown_denied
                          "failed to change ownership of directory: exit status 1"
                          _ _ _))).
  - vm_compute. reflexivity.
  - intros H. vm_compute in H. discriminate H.
  - reflexivity.
Defined.

Lemma X17_recovered_panic_witness :
  outcome_of (fst (run (Sample.stack_fails None) Sample.plain_options ["demo"] Sample.fresh))
  = Returned None.
Proof.
  refine (proj1 (proj2 (X17_recovered_panic_returns_nil (Sample.stack_fails None)
                          Sample.plain_options ["demo"] "" Sample.fresh _ _ _ _ _))).
  - vm_compute. reflexivity.
  - vm_compute. reflexivity.
Defined.

End WorkspaceStages.

(** *** The list command *)

Section ListCommand.
Import Host.



Lemma drop_prefix_spec (a b r : string) : drop_prefix a b = Some r <-> b = a +:+ r.
Proof.
  revert b. induction a as [|x a IH]; intros b; simpl.
  - rewrite append_nil_l. split; [intros H; injection H as ->; reflexivity | intros ->; reflexivity].
  - destruct b as [|y b].
    + split; [discriminate | rewrite append_cons; discriminate].
    + rewrite append_cons. destruct (Ascii.eqb_spec x y) as [->|Hne].
      * rewrite IH. split; [intros ->; reflexivity | intros H; injection H as H; exact H].
      * split; [discriminate | intros H; injection H as H _; congruence].
Qed.






End ListCommand.

(** *** The deployment secret read back by [list --passwords] *)

Section DeploymentSecret.
Import Host Credentials.

Lemma cut_at_equals_prefix (tok : string) :
  cut_at_equals (secret_prefix +:+ tok) = Some ("BITSWAN_DEPLOY_SECRET", tok).
Proof. unfold secret_prefix. repeat rewrite append_cons. reflexivity. Qed.

Lemma is_prefix_self_app (a b : string) : is_prefix a (a +:+ b) = true.
Proof. apply is_prefix_app. exists b. reflexivity. Qed.

Lemma scan_environment_skips (pre rest : list yaml) :
  Forall passed_over pre ->
  scan_environment (pre ++ rest) = scan_environment rest.
Proof.
  induction pre as [|x pre IH]; intros H; [reflexivity|].
  inversion H as [|? ? Hx Hpre]; subst. simpl.
  destruct x as [s| | |]; try (apply IH, Hpre).
  simpl in Hx. rewrite Hx. apply IH, Hpre.
Qed.

(** X19: [getGitOpsSecret] returns, with a nil error, everything after the
    first ["="] of the first string entry of the editor service's
    [environment] that starts with ["BITSWAN_DEPLOY_SECRET="]: the token
    comes back whole, also when it contains ["="] itself or is empty, and
    entries that are not strings or have another name are passed over. *)
Theorem X19_deploy_secret_is_read_back :
  forall (unmarshal : string -> string + list (string * yaml))
         (data workspace tok : string) (pre post : list yaml),
    editor_environment unmarshal data workspace
      (pre ++ YStr (secret_prefix +:+ tok) :: post) ->
    Forall passed_over pre ->
    getGitOpsSecret (inr data) unmarshal workspace = (tok, None).
Proof.
  intros unmarshal data workspace tok pre post
         (cfg & services & svc & Hu & Hs & He & Hv) Hpre.
  unfold getGitOpsSecret. rewrite Hu, Hs, He, Hv.
  rewrite (scan_environment_skips pre _ Hpre). cbn [scan_environment].
  rewrite is_prefix_self_app. unfold SplitN2. rewrite cut_at_equals_prefix. reflexivity.
Qed.

(** X20: whenever [getGitOpsSecret] returns an error the secret it returns
    is empty, so the caller, which drops the error and prints the secret
    only when it is not empty, prints nothing; and a nil error comes only
    with a file that was read and decoded. *)
Theorem X20_deploy_secret_errors_are_empty :
  forall (read : string + string)
         (unmarshal : string -> string + list (string * yaml)) (workspace : string),
    let r := getGitOpsSecret read unmarshal workspace in
    (snd r <> None -> fst r = "")
    /\ (snd r = None ->
        exists data env, read = inr data
                         /\ editor_environment unmarshal data workspace env).
Proof.
  intros read unmarshal workspace.
  assert (Hscan : forall items,
            snd (scan_environment items) <> None -> fst (scan_environment items) = "").
  { induction items as [|x items IH]; cbn [scan_environment]; [reflexivity|].
    destruct x as [s| | |]; try exact IH.
    destruct (is_prefix secret_prefix s); [|exact IH].
    destruct (SplitN2 s) as [|a [|b [|c l]]]; try exact IH.
    cbn [fst snd]. intros H. contradiction. }
  unfold getGitOpsSecret, editor_environment.
  destruct read as [e|data]; simpl; [split; [reflexivity | discriminate]|].
  destruct (unmarshal data) as [e|cfg] eqn:Hu; simpl;
    [split; [reflexivity | discriminate]|].
  destruct (map_get "services" cfg) as [[| |services|]|] eqn:Hs; simpl;
    try (split; [reflexivity | discriminate]).
  destruct (map_get ("bitswan-editor-" +:+ workspace) services) as [[| |svc|]|] eqn:He;
    simpl; try (split; [reflexivity | discriminate]).
  destruct (map_get "environment" svc) as [[|env| |]|] eqn:Hv; simpl;
    try (split; [reflexivity | discriminate]).
  split; [apply Hscan|].
  intros _. exists data, env. split; [reflexivity|].
  exists cfg, services, svc. auto.
Qed.

Lemma X19_deploy_secret_witness :
  getGitOpsSecret (inr "services: ...") sample_compose "demo" = ("s3=cr3t", None).
Proof.
  apply (X19_deploy_secret_is_read_back sample_compose "services: ..." "demo" "s3=cr3t"
           [YStr "BITSWAN_DEPLOY_URL=https://demo.example.com"; YOther] []).
  - eexists _, _, _. repeat split.
  - repeat constructor.
Defined.

Lemma X20_deploy_secret_witness :
  fst (getGitOpsSecret (inl "no such file") sample_compose "demo") = "".
Proof.
  apply (proj1 (X20_deploy_secret_errors_are_empty (inl "no such file") sample_compose
                  "demo")).
  discriminate.
Defined.

End DeploymentSecret.

(** *** The editor password read back by [list --passwords] *)

Section EditorPassword.
Import Host Credentials.

Lemma take_line_spec (s : string) :
  exists rest, s = take_line s +:+ rest
               /\ no_newline (take_line s) = true
               /\ (rest = "" \/ exists r, rest = String newline r).
Proof.
  induction s as [|c s (rest & Hs & Hn & Hr)]; simpl.
  - exists "". auto.
  - destruct (Ascii.eqb_spec c newline) as [->|Hc].
    + exists (String newline s). rewrite append_nil_l. eauto.
    + exists rest. rewrite append_cons, <- Hs. simpl.
      apply Ascii.eqb_neq in Hc. rewrite Hc. auto.
Qed.

Lemma password_at_zero (s : string) :
  password_at 0 s
  <-> exists after x t, drop_prefix "password: " s = Some after
                        /\ take_line after = String x t.
Proof.
  split.
  - intros (pre & c & tail & Hs & Hc & Hl).
    destruct pre; [|discriminate]. rewrite append_nil_l in Hs.
    exists (String c tail), c, (take_line tail). split.
    + apply drop_prefix_spec. exact Hs.
    + simpl. apply Ascii.eqb_neq in Hc. rewrite Hc. reflexivity.
  - intros (after & x & t & Hd & Ht). apply drop_prefix_spec in Hd.
    destruct after as [|c tail]; [discriminate|]. simpl in Ht.
    destruct (Ascii.eqb_spec c newline) as [->|Hc]; [discriminate|].
    exists "", c, tail. rewrite append_nil_l. auto.
Qed.

Lemma password_at_succ (c : ascii) (s : string) (n : nat) :
  password_at (S n) (String c s) <-> password_at n s.
Proof.
  split.
  - intros (pre & x & tail & Hs & Hx & Hl).
    destruct pre as [|y pre]; [discriminate|]. rewrite append_cons in Hs.
    injection Hs as _ Hs. injection Hl as Hl. exists pre, x, tail. auto.
  - intros (pre & x & tail & Hs & Hx & Hl).
    exists (String c pre), x, tail. rewrite append_cons, <- Hs. simpl. auto.
Qed.

Lemma FindPassword_step (c : ascii) (s : string) :
  ~ password_at 0 (String c s) -> FindPassword (String c s) = FindPassword s.
Proof.
  intros H. cbn [FindPassword].
  destruct (drop_prefix "password: " (String c s)) as [after|] eqn:Hd; [|reflexivity].
  destruct (take_line after) as [|x t] eqn:Ht; [reflexivity|].
  exfalso. apply H, password_at_zero. eauto.
Qed.

(** X21: when the look-up finds a password, it is the rest of the line
    after the leftmost ["password: "] that has something after it on the
    same line: non-empty, without a newline, running to the end of the
    line; and it finds none exactly when ["password: "] is nowhere followed
    by a byte of the same line. *)
Theorem X21_editor_password_is_rest_of_first_password_line :
  forall output : string,
    (forall pw, FindPassword output = Some pw ->
       exists pre rest,
         output = pre +:+ "password: " +:+ pw +:+ rest
         /\ pw <> "" /\ no_newline pw = true
         /\ (rest = "" \/ exists r, rest = String newline r)
         /\ forall n, password_at n output -> String.length pre <= n)
    /\ (FindPassword output = None <-> forall n, ~ password_at n output).
Proof.
  induction output as [|c s [IHs IHn]].
  - split.
    + intros pw H. discriminate H.
    + split; [|reflexivity]. intros _ n (pre & x & tail & Hs & _).
      destruct pre; [rewrite append_nil_l in Hs | rewrite append_cons in Hs]; discriminate.
  - destruct (drop_prefix "password: " (String c s)) as [after|] eqn:Hd.
    + destruct (take_line after) as [|x t] eqn:Ht.
      * assert (H0 : ~ password_at 0 (String c s)).
        { intros H. apply password_at_zero in H as (a & x & t & Ha & Hx). congruence. }
        rewrite (FindPassword_step c s H0). split.
        -- intros pw H. destruct (IHs pw H) as (pre & rest & Hs & Hne & Hnl & Hr & Hleft).
           exists (String c pre), rest. rewrite append_cons, <- Hs.
           repeat split; try assumption.
           intros [|n] Hn; [contradiction|]. simpl.
           apply password_at_succ in Hn. apply Hleft in Hn. lia.
        -- rewrite IHn. split.
           ++ intros H [|n] Hn; [contradiction|]. apply password_at_succ in Hn.
              exact (H n Hn).
           ++ intros H n Hn. apply (H (S n)), password_at_succ, Hn.
      * assert (Hf : FindPassword (String c s) = Some (String x t)).
        { cbn [FindPassword]. rewrite Hd, Ht. reflexivity. }
        rewrite Hf. split.
        -- intros pw H. injection H as <-.
           destruct (take_line_spec after) as (rest & Ha & Hnl & Hr).
           apply drop_prefix_spec in Hd. exists "", rest.
           rewrite append_nil_l, Hd, <- Ht, <- Ha.
           repeat split; try assumption.
           ++ rewrite Ht. discriminate.
           ++ intros n _. simpl. lia.
        -- split; [discriminate|]. intros H. exfalso.
           apply (H 0), password_at_zero. eauto.
    + assert (H0 : ~ password_at 0 (String c s)).
      { intros H. apply password_at_zero in H as (a & x & t & Ha & Hx). congruence. }
      rewrite (FindPassword_step c s H0). split.
      * intros pw H. destruct (IHs pw H) as (pre & rest & Hs & Hne & Hnl & Hr & Hleft).
        exists (String c pre), rest. rewrite append_cons, <- Hs.
        repeat split; try assumption.
        intros [|n] Hn; [contradiction|]. simpl.
        apply password_at_succ in Hn. apply Hleft in Hn. lia.
      * rewrite IHn. split.
        -- intros H [|n] Hn; [contradiction|]. apply password_at_succ in Hn.
           exact (H n Hn).
        -- intros H n Hn. apply (H (S n)), password_at_succ, Hn.
Qed.

Lemma X21_editor_password_witness :
  exists pre rest,
    ("bind-addr: 127.0.0.1:8080" +:+ String newline "auth: password"
       +:+ String newline "password: abc123" +:+ String newline "cert: false")
    = pre +:+ "password: " +:+ "abc123" +:+ rest
    /\ "abc123" <> "" /\ no_newline "abc123" = true
    /\ (rest = "" \/ exists r, rest = String newline r)
    /\ forall n,
         password_at n
           ("bind-addr: 127.0.0.1:8080" +:+ String newline "auth: password"
              +:+ String newline "password: abc123" +:+ String newline "cert: false") ->
         String.length pre <= n.
Proof.
  apply (proj1 (X21_editor_password_is_rest_of_first_password_line _) "abc123").
  vm_compute. reflexivity.
Defined.

Lemma FindPassword_nonempty (s pw : string) : FindPassword s = Some pw -> pw <> "".
Proof.
  induction s as [|c s IH]; [discriminate|]. cbn [FindPassword].
  destruct (drop_prefix "password: " (String c s)) as [after|]; [|exact IH].
  destruct (take_line after) as [|x t]; [exact IH|].
  intros H. injection H as <-. discriminate.
Qed.

(** X22: [getVSCodePassword] returns a nil error only with a non-empty
    password found in the output of a successful [exec]; with any error
    (the service is not running, the [exec] fails, no password line) the
    password it returns is empty, which the caller does not print. *)
Theorem X22_editor_password_errors_are_empty :
  forall (check : Ownership.run_result) (exec : string + string),
    let r := getVSCodePassword check exec in
    (snd r <> None -> fst r = "")
    /\ (snd r = None ->
        fst r <> "" /\ check = Ownership.RunOk
        /\ exists output, exec = inr output /\ FindPassword output = Some (fst r)).
Proof.
  intros check exec. unfold getVSCodePassword.
  destruct check as [|e]; [|split; [reflexivity | discriminate]].
  destruct exec as [e|output]; [split; [reflexivity | discriminate]|].
  destruct (FindPassword output) as [pw|] eqn:Hf; [|split; [reflexivity | discriminate]].
  cbn [fst snd]. split; [intros H; contradiction|].
  intros _. split; [exact (FindPassword_nonempty output pw Hf)|].
  split; [reflexivity|]. exists output. auto.
Qed.

Lemma X22_editor_password_witness :
  fst (getVSCodePassword (Ownership.RunErr "exit status 1") (inr "password: x")) = "".
Proof.
  apply (proj1 (X22_editor_password_errors_are_empty (Ownership.RunErr "exit status 1")
                  (inr "password: x"))).
  discriminate.
Defined.

End EditorPassword.

(** *** Image references *)

Section ImageReferences.
Import Host Go Init Stages More Sample2.

(** X24: when both [--gitops-image] and [--editor-image] are given, the
    registry is not asked: [DeploymentComposer] is the same whatever
    the version lookup would answer. *)
Theorem X24_explicit_images_skip_the_lookup :
  forall E o args (d : string) (lookup : string -> string + string),
    gitopsImage o <> "" ->
    editorImage o <> "" ->
    DeploymentComposer (with_lookup lookup E) o args d = DeploymentComposer E o args d.
Proof.
  intros E o args d lookup Hg He.
  apply String.eqb_neq in Hg, He.
  unfold DeploymentComposer, resolve_image. rewrite Hg, He. reflexivity.
Qed.

Lemma X24_explicit_images_witness :
  DeploymentComposer (with_lookup (fun _ => inl "registry unreachable") Sample.all_ok)
    explicit_images ["demo"] ""
  = DeploymentComposer Sample.all_ok explicit_images ["demo"] "".
Proof.
  apply (X24_explicit_images_skip_the_lookup Sample.all_ok explicit_images ["demo"] ""
           (fun _ => inl "registry unreachable")); discriminate.
Defined.

(** X25: when [DeploymentComposer] fails at a step after the routes were
    registered (rendering or writing the compose file, entering the
    directory, starting the stack, reading the editor password), the
    rollback removes the workspace directory but makes no admin-API call:
    the registration of the workspace's routes is the last call made and
    is not undone. *)
Theorem X25_routes_outlive_the_rollback :
  forall E o args (d : string) (w : world) (s : deploy_step),
    first_failure E o args = Some s ->
    after_routes s = true ->
    exists v w2,
      DeploymentComposer E o args d w = (Pan v, w2)
      /\ api (cleanup E (gitopsConfig E args) w2)
         = AddCaddyRecords (gitopsName args) (domain o) (negb (String.eqb d "")) (noIde o)
           :: api w
      /\ (remove_all_result E (gitopsConfig E args) = None ->
          ~ present (gitopsConfig E args) (cleanup E (gitopsConfig E args) w2)).
Proof.
  intros E o args d w s Hs Hafter.
  assert (Hdc : exists v w2,
            DeploymentComposer E o args d w = (Pan v, w2)
            /\ api w2 = AddCaddyRecords (gitopsName args) (domain o)
                          (negb (String.eqb d "")) (noIde o) :: api w).
  { unfold first_failure in Hs. unfold DeploymentComposer.
    destruct (image_ref E (gitopsImage o) _ _) as [gi|] eqn:Hgi;
      [|injection Hs as <-; discriminate].
    rewrite (bind_Ok _ _ _ _ _ (resolve_image_ok E _ _ _ _ _ w Hgi)).
    destruct (image_ref E (editorImage o) _ _) as [ei|] eqn:Hei;
      [|injection Hs as <-; discriminate].
    rewrite (bind_Ok _ _ _ _ _ (resolve_image_ok E _ _ _ _ _ w Hei)).
    unfold bind, or_return, or_panic, value_or_panic, os_MkdirAll, os_WriteFile, os_Chdir,
      call_api, run_command, ret, return_, panic, bind.
    destruct (mkdir_deployment E); [injection Hs as <-; discriminate|].
    destruct (AddCaddyRecords_result E); [injection Hs as <-; discriminate|].
    destruct (CreateDockerComposeFile E _ _ gi ei _ _); [eauto|].
    destruct (write_compose E); [eauto|].
    destruct (chdir_deployment E); [eauto|].
    cbn [fst]. destruct (compose_up E); [|eauto].
    destruct (negb (noIde o)); [|discriminate].
    destruct (GetEditorPassword E _ _); [eauto | discriminate]. }
  destruct Hdc as (v & w2 & Hdc & Hapi). exists v, w2. split; [exact Hdc|].
  unfold cleanup. destruct (remove_all_result E (gitopsConfig E args)).
  - split; [exact Hapi | discriminate].
  - split; [exact Hapi|]. intros _. unfold present, set_fs. simpl.
    rewrite remove_all_gone. intros [x Hx]. discriminate.
Qed.

Lemma X25_routes_witness :
  exists v w2,
    DeploymentComposer (Sample.stack_fails None) Sample.plain_options ["demo"] ""
      Sample.fresh = (Pan v, w2)
    /\ api (cleanup (Sample.stack_fails None) (gitopsConfig (Sample.stack_fails None) ["demo"])
              w2)
       = AddCaddyRecords "demo" "demo.example.com" false false :: api Sample.fresh
    /\ (remove_all_result (Sample.stack_fails None)
          (gitopsConfig (Sample.stack_fails None) ["demo"]) = None ->
        ~ present (gitopsConfig (Sample.stack_fails None) ["demo"])
            (cleanup (Sample.stack_fails None)
               (gitopsConfig (Sample.stack_fails None) ["demo"]) w2)).
Proof.
  apply (X25_routes_outlive_the_rollback (Sample.stack_fails None) Sample.plain_options
           ["demo"] "" Sample.fresh StartStack).
  - vm_compute. reflexivity.
  - reflexivity.
Defined.

End ImageReferences.
